(** * OrganizeFinance backend: goals, transactions and their aggregates

    A shallow embedding of the Express request handlers of the server
    (transactions CRUD, summary, monthly chart, goals CRUD and the
    progress endpoint) over a Prisma store, and the properties of the
    goal engine, the transaction aggregator and the ownership checks.

    Modelling choices:
    - amounts ([REAL] columns, JS numbers) are exact rationals [Q]; NaN,
      infinities and binary rounding are outside the model;
    - a JS [Date] is a local calendar date (year, month index, day of the
      month); time of day and time zones are outside the model, so
      [setHours(0,0,0,0)] is the identity;
    - a Prisma table is a finite map from the primary key to the row,
      with an auto-increment counter next to it;
    - a handler takes the authenticated user id of the session (what
      [isAuthenticated] lets through) and returns the new store and the
      response. *)

From Stdlib Require Import ZArith QArith Qround Lia Lqa Ascii String.
From Stdlib Require DecimalString DecimalN DecimalPos.
From stdpp Require Import gmap strings list sorting.

Local Open Scope string_scope.
Local Open Scope Z_scope.

(** ** JavaScript primitives *)

(** [Math.round]: the nearest integer, ties towards plus infinity. *)
Definition Math_round (x : Q) : Z := Qfloor (x + (1 # 2))%Q.

(** [Math.min] on integers. *)
Definition Math_min (a b : Z) : Z := Z.min a b.

Definition Qltb (a b : Q) : bool := negb (Qle_bool b a).

(** A numeric field of a JSON request body: the key is absent, or holds
    a number, or holds a non-empty string that is not a numeric literal
    (such as "abc").  [null], booleans and numeric strings are not
    modelled. *)
Inductive jsnum :=
| NUndefined
| NNumber (q : Q)
| NText.

(** Truthiness: [undefined] and the number zero are falsy. *)
Definition num_truthy (v : jsnum) : bool :=
  match v with
  | NUndefined => false
  | NNumber q => negb (Qeq_bool q 0)
  | NText => true
  end.

(** [isNaN(v)]: whether [Number(v)] is NaN. *)
Definition isNaN (v : jsnum) : bool :=
  match v with
  | NNumber _ => false
  | NUndefined | NText => true
  end.

(** [v <= 0] and [v < 0]: comparisons with NaN are false. *)
Definition num_le0 (v : jsnum) : bool :=
  match v with NNumber q => Qle_bool q 0 | _ => false end.

Definition num_lt0 (v : jsnum) : bool :=
  match v with NNumber q => Qltb q 0 | _ => false end.

(** [parseFloat(v)].  The handlers reach it only on values that passed
    [isNaN]; NaN itself has no counterpart in [Q]. *)
Definition parseFloat (v : jsnum) : Q :=
  match v with NNumber q => q | _ => 0%Q end.

(** A word between double quotes, as the error messages print it. *)
Definition quoted (s : string) : string :=
  String (ascii_of_nat 34) (s +:+ String (ascii_of_nat 34) EmptyString).

(** A string field of a request body. *)
Inductive jsstr :=
| SUndefined
| SNull
| SString (s : string).

Definition str_truthy (v : jsstr) : bool :=
  match v with
  | SString s => negb (String.eqb s EmptyString)
  | _ => false
  end.

(** [v === 'lit'] *)
Definition str_is (v : jsstr) (lit : string) : bool :=
  match v with SString s => String.eqb s lit | _ => false end.

(** [v || null] for the optional text columns. *)
Definition str_or_null (v : jsstr) : option string :=
  match v with
  | SString s => if String.eqb s EmptyString then None else Some s
  | _ => None
  end.

(** The string of a truthy string field. *)
Definition str_value (v : jsstr) : string :=
  match v with SString s => s | _ => EmptyString end.

(** ** Dates *)

Record Date := mkDate {
  getFullYear : Z;
  getMonth : Z;          (* 0 = January *)
  getDate : positive     (* day of the month *)
}.

#[global] Instance Date_eq_dec : EqDecision Date.
Proof. solve_decision. Defined.

(** [new Date(year, monthIndex, 1)]: a month index outside 0..11 carries
    into the year. *)
Definition newDate1 (year monthIndex : Z) : Date :=
  {| getFullYear := year + monthIndex / 12;
     getMonth := monthIndex mod 12;
     getDate := 1%positive |}.

(** [a < b] and [a <= b] on dates. *)
Definition Date_ltb (a b : Date) : bool :=
  (getFullYear a <? getFullYear b)
  || ((getFullYear a =? getFullYear b)
      && ((getMonth a <? getMonth b)
          || ((getMonth a =? getMonth b) && (getDate a <? getDate b)%positive))).

Definition Date_leb (a b : Date) : bool := negb (Date_ltb b a).

(** A date field of a request body: absent (or another falsy value), a
    string that [new Date] cannot parse, or a string that parses. *)
Inductive jsdate :=
| DUndefined
| DInvalid
| DParsed (d : Date).

Definition date_truthy (v : jsdate) : bool :=
  match v with DUndefined => false | _ => true end.

(** [isDateInPast(date)], with [today] the clock's current date. *)
Definition isDateInPast (today date : Date) : bool := Date_ltb date today.

(** [validateIntegerId]: the digits-only test [/^\d+$/] and [parseInt]. *)
Definition is_digit (c : ascii) : bool :=
  let n := nat_of_ascii c in (48 <=? n)%nat && (n <=? 57)%nat.

Fixpoint all_digits (s : string) : bool :=
  match s with
  | EmptyString => true
  | String c s' => is_digit c && all_digits s'
  end.

Fixpoint parseInt_from (acc : N) (s : string) : N :=
  match s with
  | EmptyString => acc
  | String c s' => parseInt_from (10 * acc + (N.of_nat (nat_of_ascii c) - 48))%N s'
  end.

Definition validateIntegerId (value : string) : option N :=
  match value with
  | EmptyString => None
  | _ => if all_digits value then Some (parseInt_from 0%N value) else None
  end.

(** ** The store *)

Record transaction := mkTransaction {
  tx_id : N;
  tx_userId : N;
  tx_type : string;
  tx_category : string;
  tx_description : string;
  tx_amount : Q;
  tx_date : Date
}.

Record goal := mkGoal {
  goal_id : N;
  goal_userId : N;
  goal_name : string;
  targetAmount : Q;
  currentAmount : Q;
  deadline : Date;
  goal_category : option string;
  goal_description : option string;
  status : string;
  createdAt : N
}.

Record Db := mkDb {
  transactions : gmap N transaction;
  nextTransactionId : N;
  goals : gmap N goal;
  nextGoalId : N
}.

Definition emptyDb : Db :=
  {| transactions := ∅; nextTransactionId := 1%N;
     goals := ∅; nextGoalId := 1%N |}.

Definition with_transactions (db : Db) (m : gmap N transaction) : Db :=
  {| transactions := m; nextTransactionId := nextTransactionId db;
     goals := goals db; nextGoalId := nextGoalId db |}.

Definition with_goals (db : Db) (m : gmap N goal) : Db :=
  {| transactions := transactions db;
     nextTransactionId := nextTransactionId db;
     goals := m; nextGoalId := nextGoalId db |}.

(** The rows of a table, in the store's own order. *)
Definition rows {A} (m : gmap N A) : list A := (map_to_list m).*2.

(** The clock a request is served at. *)
Record Clock := mkClock {
  now : Date;       (* [new Date()] *)
  timestamp : N     (* [CURRENT_TIMESTAMP] *)
}.

(** ** Responses *)

Record goalWithProgress := mkGoalWithProgress {
  gp_goal : goal;        (* [...goal] *)
  progress : Z
}.

Record monthBucket := mkMonthBucket {
  month : Z;
  year : Z;
  label : string;
  income : Q;
  expenses : Q
}.

Inductive body :=
| ErrorBody (error : string)
| MessageBody (message : string)
| TransactionBody (t : transaction)
| MessageTransactionBody (message : string) (t : transaction)
| SummaryBody (income expenses balance : Q) (transactionCount : nat)
| MonthsBody (months : list monthBucket)
| MessageRawGoalBody (message : string) (g : goal)
| GoalBody (g : goalWithProgress)
| MessageGoalBody (message : string) (g : goalWithProgress)
| GoalsBody (gs : list goalWithProgress).

Record response := mkResponse {
  statusCode : Z;
  json : body
}.

Definition ok (b : body) : response := {| statusCode := 200; json := b |}.
Definition created (b : body) : response := {| statusCode := 201; json := b |}.
Definition badRequest (e : string) : response :=
  {| statusCode := 400; json := ErrorBody e |}.
Definition notFound (e : string) : response :=
  {| statusCode := 404; json := ErrorBody e |}.

(** ** Goals *)

(** The progress percentage every goal-returning route computes. *)
Definition goal_progress (g : goal) : Z :=
  if Qltb 0 (targetAmount g)
  then Math_min (Math_round ((currentAmount g / targetAmount g) * 100)%Q) 100
  else 0.

Definition withProgress (g : goal) : goalWithProgress :=
  {| gp_goal := g; progress := goal_progress g |}.

Record goalBody := mkGoalBody {
  gb_name : jsstr;
  gb_targetAmount : jsnum;
  gb_currentAmount : jsnum;
  gb_deadline : jsdate;
  gb_category : jsstr;
  gb_description : jsstr;
  gb_status : jsstr
}.

(** [v !== undefined] *)
Definition num_defined (v : jsnum) : bool :=
  match v with NUndefined => false | _ => true end.

Definition str_defined (v : jsstr) : bool :=
  match v with SUndefined => false | _ => true end.

Definition statuses : list string := ["active"; "completed"; "cancelled"].

Definition includes (l : list string) (v : jsstr) : bool :=
  match v with
  | SString s => existsb (String.eqb s) l
  | _ => false
  end.

(** POST /api/goals *)
Definition createGoal (clk : Clock) (userId : N) (b : goalBody) (db : Db)
  : Db * response :=
  if negb (str_truthy (gb_name b)) || negb (num_truthy (gb_targetAmount b))
     || negb (date_truthy (gb_deadline b))
  then (db, badRequest "Nome, valor alvo e prazo são obrigatórios")
  else if isNaN (gb_targetAmount b) || num_le0 (gb_targetAmount b)
  then (db, badRequest "Valor alvo deve ser um número positivo")
  else if num_defined (gb_currentAmount b)
          && (isNaN (gb_currentAmount b) || num_lt0 (gb_currentAmount b))
  then (db, badRequest "Valor atual deve ser um número não-negativo")
  else match gb_deadline b with
  | DParsed parsedDeadline =>
    if isDateInPast (now clk) parsedDeadline
    then (db, badRequest "Prazo não pode estar no passado")
    else
      let finalCurrentAmount :=
        if num_truthy (gb_currentAmount b)
        then parseFloat (gb_currentAmount b) else 0%Q in
      let finalTargetAmount := parseFloat (gb_targetAmount b) in
      let initialStatus :=
        if Qle_bool finalTargetAmount finalCurrentAmount
        then "completed" else "active" in
      let g := {| goal_id := nextGoalId db;
                  goal_userId := userId;
                  goal_name := str_value (gb_name b);
                  targetAmount := finalTargetAmount;
                  currentAmount := finalCurrentAmount;
                  deadline := parsedDeadline;
                  goal_category := str_or_null (gb_category b);
                  goal_description := str_or_null (gb_description b);
                  status := initialStatus;
                  createdAt := timestamp clk |} in
      ({| transactions := transactions db;
          nextTransactionId := nextTransactionId db;
          goals := <[nextGoalId db := g]> (goals db);
          nextGoalId := (nextGoalId db + 1)%N |},
       created (MessageRawGoalBody "Meta criada com sucesso!" g))
  | _ => (db, badRequest "Prazo inválido")
  end.

Definition deadline_le (a b : goal) : Prop :=
  Date_leb (deadline a) (deadline b) = true.

Definition createdAt_ge (a b : goal) : Prop := (createdAt b <= createdAt a)%N.

#[global] Instance deadline_le_dec : RelDecision deadline_le.
Proof. intros a b. unfold deadline_le. apply _. Defined.

#[global] Instance createdAt_ge_dec : RelDecision createdAt_ge.
Proof. intros a b. unfold createdAt_ge. apply _. Defined.

(** The [where] clause of GET /api/goals: the owner, and the status when
    the query names one of the three. *)
Definition goal_filters (userId : N) (statusFilter : jsstr) (g : goal) : bool :=
  (goal_userId g =? userId)%N
  && (if str_truthy statusFilter && includes statuses statusFilter
      then String.eqb (status g) (str_value statusFilter)
      else true).

(** GET /api/goals *)
Definition listGoals (userId : N) (statusFilter : jsstr) (db : Db) : response :=
  let found :=
    merge_sort deadline_le
      (List.filter (goal_filters userId statusFilter) (rows (goals db))) in
  ok (GoalsBody (withProgress <$> found)).

(** GET /api/goals/:id *)
Definition getGoal (userId : N) (id : string) (db : Db) : response :=
  match validateIntegerId id with
  | None => badRequest "ID inválido"
  | Some goalId =>
    match goals db !! goalId with
    | Some g =>
      if (goal_userId g =? userId)%N
      then ok (GoalBody (withProgress g))
      else notFound "Meta não encontrada"
    | None => notFound "Meta não encontrada"
    end
  end.

(** GET /api/goals/latest/recent *)
Definition recentGoals (userId : N) (db : Db) : response :=
  let found :=
    take 2 (merge_sort createdAt_ge
              (List.filter (λ g, (goal_userId g =? userId)%N)
                 (rows (goals db)))) in
  ok (GoalsBody (withProgress <$> found)).

(** The [data] of [prisma.goal.update]: only the keys that were set. *)
Record goalUpdateData := mkGoalUpdateData {
  ud_name : option string;
  ud_targetAmount : option Q;
  ud_currentAmount : option Q;
  ud_deadline : option Date;
  ud_category : option (option string);
  ud_description : option (option string);
  ud_status : option string
}.

Definition goal_update (data : goalUpdateData) (g : goal) : goal :=
  {| goal_id := goal_id g;
     goal_userId := goal_userId g;
     goal_name := default (goal_name g) (ud_name data);
     targetAmount := default (targetAmount g) (ud_targetAmount data);
     currentAmount := default (currentAmount g) (ud_currentAmount data);
     deadline := default (deadline g) (ud_deadline data);
     goal_category := default (goal_category g) (ud_category data);
     goal_description := default (goal_description g) (ud_description data);
     status := default (status g) (ud_status data);
     createdAt := createdAt g |}.

(** The deadline checks of PUT /api/goals/:id, run when a deadline is
    supplied: the error message, if any. *)
Definition deadline_error (today : Date) (v : jsdate) : option string :=
  match v with
  | DUndefined => None
  | DInvalid => Some "Prazo inválido"
  | DParsed parsedDeadline =>
    if isDateInPast today parsedDeadline
    then Some "Prazo não pode estar no passado" else None
  end.

Definition date_value (v : jsdate) : option Date :=
  match v with DParsed d => Some d | _ => None end.

(** The status written by PUT /api/goals/:id. *)
Definition update_status (existingGoal : goal) (st : jsstr)
    (finalTargetAmount finalCurrentAmount : Q) : option string :=
  if negb (str_truthy st) then
    if Qle_bool finalTargetAmount finalCurrentAmount then Some "completed"
    else if String.eqb (status existingGoal) "completed"
            && Qltb finalCurrentAmount finalTargetAmount
    then Some "active"
    else None
  else Some (str_value st).

(** The checks PUT /api/goals/:id runs on the supplied fields, in the
    order of the handler: the message of the first one that fails. *)
Definition goalUpdate_error (today : Date) (b : goalBody) : option string :=
  if num_truthy (gb_targetAmount b)
     && (isNaN (gb_targetAmount b) || num_le0 (gb_targetAmount b))
  then Some "Valor alvo deve ser um número positivo"
  else if num_defined (gb_currentAmount b)
          && (isNaN (gb_currentAmount b) || num_lt0 (gb_currentAmount b))
  then Some "Valor atual deve ser um número não-negativo"
  else match deadline_error today (gb_deadline b) with
  | Some e => Some e
  | None =>
    if str_truthy (gb_status b) && negb (includes statuses (gb_status b))
    then Some ("Status deve ser " +:+ quoted "active" +:+ ", "
               +:+ quoted "completed" +:+ " ou " +:+ quoted "cancelled")
    else None
  end.

(** The [updateData] PUT /api/goals/:id builds from the supplied fields
    and the goal as stored. *)
Definition goalUpdateData_of (existingGoal : goal) (b : goalBody)
  : goalUpdateData :=
  let finalTargetAmount :=
    if num_truthy (gb_targetAmount b)
    then parseFloat (gb_targetAmount b)
    else targetAmount existingGoal in
  let finalCurrentAmount :=
    if num_defined (gb_currentAmount b)
    then parseFloat (gb_currentAmount b)
    else currentAmount existingGoal in
  {| ud_name :=
       if str_truthy (gb_name b) then Some (str_value (gb_name b)) else None;
     ud_targetAmount :=
       if num_truthy (gb_targetAmount b)
       then Some (parseFloat (gb_targetAmount b)) else None;
     ud_currentAmount :=
       if num_defined (gb_currentAmount b)
       then Some (parseFloat (gb_currentAmount b)) else None;
     ud_deadline := date_value (gb_deadline b);
     ud_category :=
       if str_defined (gb_category b)
       then Some (str_or_null (gb_category b)) else None;
     ud_description :=
       if str_defined (gb_description b)
       then Some (str_or_null (gb_description b)) else None;
     ud_status :=
       update_status existingGoal (gb_status b)
         finalTargetAmount finalCurrentAmount |}.

(** PUT /api/goals/:id *)
Definition updateGoal (clk : Clock) (userId : N) (id : string) (b : goalBody)
    (db : Db) : Db * response :=
  match validateIntegerId id with
  | None => (db, badRequest "ID inválido")
  | Some goalId =>
    match goals db !! goalId with
    | None => (db, notFound "Meta não encontrada")
    | Some existingGoal =>
      if negb (goal_userId existingGoal =? userId)%N
      then (db, notFound "Meta não encontrada")
      else match goalUpdate_error (now clk) b with
      | Some e => (db, badRequest e)
      | None =>
        let g := goal_update (goalUpdateData_of existingGoal b) existingGoal in
        (with_goals db (<[goalId := g]> (goals db)),
         ok (MessageGoalBody "Meta atualizada com sucesso!" (withProgress g)))
      end
    end
  end.

(** DELETE /api/goals/:id *)
Definition deleteGoal (userId : N) (id : string) (db : Db) : Db * response :=
  match validateIntegerId id with
  | None => (db, badRequest "ID inválido")
  | Some goalId =>
    match goals db !! goalId with
    | None => (db, notFound "Meta não encontrada")
    | Some g =>
      if negb (goal_userId g =? userId)%N
      then (db, notFound "Meta não encontrada")
      else (with_goals db (delete goalId (goals db)),
            ok (MessageBody "Meta deletada com sucesso!"))
    end
  end.

Definition goalCompletedMessage : string := "Parabéns! Meta concluída!".
Definition progressUpdatedMessage : string := "Progresso atualizado com sucesso!".

(** PUT /api/goals/:id/amount *)
Definition updateProgress (userId : N) (id : string) (amount : jsnum)
    (db : Db) : Db * response :=
  match validateIntegerId id with
  | None => (db, badRequest "ID inválido")
  | Some goalId =>
    if negb (num_truthy amount) || isNaN amount || num_lt0 amount
    then (db, badRequest "Valor deve ser um número não-negativo")
    else
      match goals db !! goalId with
      | None => (db, notFound "Meta não encontrada")
      | Some existingGoal =>
        if negb (goal_userId existingGoal =? userId)%N
        then (db, notFound "Meta não encontrada")
        else
          let newCurrentAmount := parseFloat amount in
          let newStatus :=
            if Qle_bool (targetAmount existingGoal) newCurrentAmount
            then "completed" else status existingGoal in
          let g :=
            goal_update
              {| ud_name := None; ud_targetAmount := None;
                 ud_currentAmount := Some newCurrentAmount;
                 ud_deadline := None; ud_category := None;
                 ud_description := None; ud_status := Some newStatus |}
              existingGoal in
          (with_goals db (<[goalId := g]> (goals db)),
           ok (MessageGoalBody
                 (if String.eqb newStatus "completed"
                  then goalCompletedMessage else progressUpdatedMessage)
                 (withProgress g)))
      end
  end.

(** ** Transactions *)

Record transactionBody := mkTransactionBody {
  tb_type : jsstr;
  tb_category : jsstr;
  tb_description : jsstr;
  tb_amount : jsnum;
  tb_date : jsdate
}.

Definition typeError : string :=
  "Tipo deve ser " +:+ quoted "expense" +:+ " ou " +:+ quoted "income".

(** POST /api/transactions *)
Definition createTransaction (userId : N) (b : transactionBody) (db : Db)
  : Db * response :=
  if negb (str_truthy (tb_type b)) || negb (str_truthy (tb_category b))
     || negb (str_truthy (tb_description b)) || negb (num_truthy (tb_amount b))
     || negb (date_truthy (tb_date b))
  then (db, badRequest "Todos os campos são obrigatórios")
  else if negb (str_is (tb_type b) "expense")
          && negb (str_is (tb_type b) "income")
  then (db, badRequest typeError)
  else if isNaN (tb_amount b) || num_le0 (tb_amount b)
  then (db, badRequest "Valor deve ser um número positivo")
  else match tb_date b with
  | DParsed parsedDate =>
    let t := {| tx_id := nextTransactionId db;
                tx_userId := userId;
                tx_type := str_value (tb_type b);
                tx_category := str_value (tb_category b);
                tx_description := str_value (tb_description b);
                tx_amount := parseFloat (tb_amount b);
                tx_date := parsedDate |} in
    ({| transactions := <[nextTransactionId db := t]> (transactions db);
        nextTransactionId := (nextTransactionId db + 1)%N;
        goals := goals db;
        nextGoalId := nextGoalId db |},
     created (MessageTransactionBody "Transação criada com sucesso!" t))
  | _ => (db, badRequest "Data inválida")
  end.

(** GET /api/transactions/:id *)
Definition getTransaction (userId : N) (id : string) (db : Db) : response :=
  match validateIntegerId id with
  | None => badRequest "ID inválido"
  | Some transactionId =>
    match transactions db !! transactionId with
    | Some t =>
      if (tx_userId t =? userId)%N
      then ok (TransactionBody t)
      else notFound "Transação não encontrada"
    | None => notFound "Transação não encontrada"
    end
  end.

(** The [data] of [prisma.transaction.update]. *)
Record transactionUpdateData := mkTransactionUpdateData {
  tud_type : option string;
  tud_category : option string;
  tud_description : option string;
  tud_amount : option Q;
  tud_date : option Date
}.

Definition transaction_update (data : transactionUpdateData) (t : transaction)
  : transaction :=
  {| tx_id := tx_id t;
     tx_userId := tx_userId t;
     tx_type := default (tx_type t) (tud_type data);
     tx_category := default (tx_category t) (tud_category data);
     tx_description := default (tx_description t) (tud_description data);
     tx_amount := default (tx_amount t) (tud_amount data);
     tx_date := default (tx_date t) (tud_date data) |}.

Definition if_truthy (v : jsstr) : option string :=
  if str_truthy v then Some (str_value v) else None.

(** PUT /api/transactions/:id *)
Definition updateTransaction (userId : N) (id : string) (b : transactionBody)
    (db : Db) : Db * response :=
  match validateIntegerId id with
  | None => (db, badRequest "ID inválido")
  | Some transactionId =>
    match transactions db !! transactionId with
    | None => (db, notFound "Transação não encontrada")
    | Some existingTransaction =>
      if negb (tx_userId existingTransaction =? userId)%N
      then (db, notFound "Transação não encontrada")
      else if str_truthy (tb_type b) && negb (str_is (tb_type b) "expense")
              && negb (str_is (tb_type b) "income")
      then (db, badRequest typeError)
      else if num_truthy (tb_amount b)
              && (isNaN (tb_amount b) || num_le0 (tb_amount b))
      then (db, badRequest "Valor deve ser um número positivo")
      else match tb_date b with
      | DInvalid => (db, badRequest "Data inválida")
      | _ =>
        let updateData :=
          {| tud_type := if_truthy (tb_type b);
             tud_category := if_truthy (tb_category b);
             tud_description := if_truthy (tb_description b);
             tud_amount :=
               if num_truthy (tb_amount b)
               then Some (parseFloat (tb_amount b)) else None;
             tud_date := date_value (tb_date b) |} in
        let t := transaction_update updateData existingTransaction in
        (with_transactions db (<[transactionId := t]> (transactions db)),
         ok (MessageTransactionBody "Transação atualizada com sucesso!" t))
      end
    end
  end.

(** DELETE /api/transactions/:id *)
Definition deleteTransaction (userId : N) (id : string) (db : Db)
  : Db * response :=
  match validateIntegerId id with
  | None => (db, badRequest "ID inválido")
  | Some transactionId =>
    match transactions db !! transactionId with
    | None => (db, notFound "Transação não encontrada")
    | Some t =>
      if negb (tx_userId t =? userId)%N
      then (db, notFound "Transação não encontrada")
      else (with_transactions db (delete transactionId (transactions db)),
            ok (MessageBody "Transação deletada com sucesso!"))
    end
  end.

(** [prisma.transaction.findMany({ where: { userId } })] *)
Definition userTransactions (userId : N) (db : Db) : list transaction :=
  List.filter (λ t, (tx_userId t =? userId)%N) (rows (transactions db)).

(** [list.filter(t => t.type === type).reduce((sum, t) => sum + t.amount, 0)] *)
Definition total_of (type : string) (l : list transaction) : Q :=
  fold_left (λ sum t, (sum + tx_amount t)%Q)
    (List.filter (λ t, String.eqb (tx_type t) type) l) 0%Q.

Record stats := mkStats {
  st_income : Q;
  st_expenses : Q;
  st_balance : Q;
  st_transactionCount : nat
}.

Definition summaryStats (userId : N) (db : Db) : stats :=
  let found := userTransactions userId db in
  let income := total_of "income" found in
  let expenses := total_of "expense" found in
  {| st_income := income; st_expenses := expenses;
     st_balance := (income - expenses)%Q;
     st_transactionCount := length found |}.

(** GET /api/transactions/summary/stats *)
Definition getSummary (userId : N) (db : Db) : response :=
  let s := summaryStats userId db in
  ok (SummaryBody (st_income s) (st_expenses s) (st_balance s)
        (st_transactionCount s)).

(** [toLocaleDateString('pt-BR', { month: 'short' }).replace('.', '')]:
    the short month name of the locale without its dot. *)
Definition monthLabel (m : Z) : string :=
  nth (Z.to_nat m)
    ["jan"; "fev"; "mar"; "abr"; "mai"; "jun";
     "jul"; "ago"; "set"; "out"; "nov"; "dez"] EmptyString.

(** The bucket pushed at step [i] of the loop. *)
Definition bucketAt (today : Date) (i : Z) : monthBucket :=
  let date := newDate1 (getFullYear today) (getMonth today - i) in
  {| month := getMonth date; year := getFullYear date;
     label := monthLabel (getMonth date);
     income := 0%Q; expenses := 0%Q |}.

(** [for (let i = n; i >= 0; i--) months.push(...)] *)
Fixpoint pushMonths (today : Date) (n : nat) : list monthBucket :=
  bucketAt today (Z.of_nat n)
  :: match n with
     | O => []
     | S k => pushMonths today k
     end.

(** [findIndex]: [None] stands for -1. *)
Fixpoint findIndex {A} (p : A → bool) (l : list A) : option nat :=
  match l with
  | [] => None
  | x :: l' => if p x then Some O else S <$> findIndex p l'
  end.

Definition sameMonth (d : Date) (m : monthBucket) : bool :=
  (month m =? getMonth d) && (year m =? getFullYear d).

Definition addIncome (a : Q) (m : monthBucket) : monthBucket :=
  {| month := month m; year := year m; label := label m;
     income := (income m + a)%Q; expenses := expenses m |}.

Definition addExpenses (a : Q) (m : monthBucket) : monthBucket :=
  {| month := month m; year := year m; label := label m;
     income := income m; expenses := (expenses m + a)%Q |}.

(** The body of the [forEach] over the transactions. *)
Definition accumulate (months : list monthBucket) (t : transaction)
  : list monthBucket :=
  match findIndex (sameMonth (tx_date t)) months with
  | Some monthIndex =>
    if String.eqb (tx_type t) "income"
    then alter (addIncome (tx_amount t)) monthIndex months
    else alter (addExpenses (tx_amount t)) monthIndex months
  | None => months
  end.

Definition tx_date_le (a b : transaction) : Prop :=
  Date_leb (tx_date a) (tx_date b) = true.

#[global] Instance tx_date_le_dec : RelDecision tx_date_le.
Proof. intros a b. unfold tx_date_le. apply _. Defined.

(** The first day of the oldest month of the chart. *)
Definition chartStart (today : Date) : Date :=
  newDate1 (getFullYear today) (getMonth today - 5).

(** The transactions the chart query loads: the user's, from the start
    date on, by date. *)
Definition chartTransactions (today : Date) (userId : N) (db : Db)
  : list transaction :=
  merge_sort tx_date_le
    (List.filter
       (λ t, (tx_userId t =? userId)%N && Date_leb (chartStart today) (tx_date t))
       (rows (transactions db))).

Definition monthlyChart (today : Date) (userId : N) (db : Db)
  : list monthBucket :=
  fold_left accumulate (chartTransactions today userId db) (pushMonths today 5).

(** GET /api/transactions/chart/monthly *)
Definition getMonthlyChart (clk : Clock) (userId : N) (db : Db) : response :=
  ok (MonthsBody (monthlyChart (now clk) userId db)).

(** ** The API as a state machine *)

Inductive request :=
| PostTransaction (b : transactionBody)
| GetTransaction (id : string)
| PutTransaction (id : string) (b : transactionBody)
| DeleteTransaction (id : string)
| GetSummary
| GetMonthlyChart
| PostGoal (b : goalBody)
| GetGoals (statusFilter : jsstr)
| GetGoal (id : string)
| GetRecentGoals
| PutGoal (id : string) (b : goalBody)
| DeleteGoal (id : string)
| PutGoalAmount (id : string) (amount : jsnum).

Definition handle (clk : Clock) (userId : N) (r : request) (db : Db)
  : Db * response :=
  match r with
  | PostTransaction b => createTransaction userId b db
  | GetTransaction id => (db, getTransaction userId id db)
  | PutTransaction id b => updateTransaction userId id b db
  | DeleteTransaction id => deleteTransaction userId id db
  | GetSummary => (db, getSummary userId db)
  | GetMonthlyChart => (db, getMonthlyChart clk userId db)
  | PostGoal b => createGoal clk userId b db
  | GetGoals statusFilter => (db, listGoals userId statusFilter db)
  | GetGoal id => (db, getGoal userId id db)
  | GetRecentGoals => (db, recentGoals userId db)
  | PutGoal id b => updateGoal clk userId id b db
  | DeleteGoal id => deleteGoal userId id db
  | PutGoalAmount id amount => updateProgress userId id amount db
  end.

(** The stores the API can bring about, from the empty one. *)
Inductive reachable : Db → Prop :=
| reachable_empty : reachable emptyDb
| reachable_step clk userId r db :
    reachable db → reachable (handle clk userId r db).1.

(** ** Reading a response *)

(** The [message] of a response body, when it has one. *)
Definition message_of (resp : response) : option string :=
  match json resp with
  | MessageBody m | MessageTransactionBody m _
  | MessageRawGoalBody m _ | MessageGoalBody m _ => Some m
  | _ => None
  end.

(** The goals a response carries together with their progress. *)
Definition returned_goals (resp : response) : list goalWithProgress :=
  match json resp with
  | GoalBody g | MessageGoalBody _ g => [g]
  | GoalsBody gs => gs
  | _ => []
  end.

(** The progress route congratulates exactly when the call itself moves
    the goal to completed: a reading of the response message that the
    handler does not follow. *)
Definition congratulates_on_transition_only
    (userId : N) (id : string) (amount : jsnum) (db : Db) : Prop :=
  ∀ goalId before after,
    statusCode (updateProgress userId id amount db).2 = 200 →
    validateIntegerId id = Some goalId →
    goals db !! goalId = Some before →
    goals (updateProgress userId id amount db).1 !! goalId = Some after →
    (message_of (updateProgress userId id amount db).2
       = Some goalCompletedMessage
     ↔ status before ≠ "completed" ∧ status after = "completed").

(** A supplied target amount that is zero or negative makes the goal
    update fail and leaves the store as it was: a reading of the target
    check that the handler does not follow for zero. *)
Definition rejects_nonpositive_target
    (clk : Clock) (userId : N) (id : string) (b : goalBody) (db : Db) : Prop :=
  ∀ q, gb_targetAmount b = NNumber q → (q <= 0)%Q →
    ∃ e, updateGoal clk userId id b db = (db, badRequest e).

(** ** The progress formula of the specification *)



(** ** Invariants of the store *)

(** The amounts of a stored goal: a positive target, a current amount
    that is not negative. *)
Definition goal_ok (g : goal) : Prop :=
  (0 < targetAmount g)%Q ∧ (0 <= currentAmount g)%Q.



(** ** Totals over the chart *)







(** The months of a bucket list, without the totals. *)
Definition monthKeys (months : list monthBucket) : list (Z * Z) :=
  (λ m, (month m, year m)) <$> months.

(** ** Sample requests and stores *)

Definition sampleClock : Clock :=
  {| now := {| getFullYear := 2024; getMonth := 1; getDate := 15 |};
     timestamp := 1000%N |}.

Definition sampleGoalBody (target current : Q) : goalBody :=
  {| gb_name := SString "Viagem";
     gb_targetAmount := NNumber target;
     gb_currentAmount := NNumber current;
     gb_deadline :=
       DParsed {| getFullYear := 2024; getMonth := 6; getDate := 1 |};
     gb_category := SUndefined;
     gb_description := SUndefined;
     gb_status := SUndefined |}.

(** User 7 owns goal 1: target 200, saved 50, active. *)
Definition activeGoalDb : Db :=
  (createGoal sampleClock 7 (sampleGoalBody 200 50) emptyDb).1.

(** User 7 owns goal 1: target 100, saved 100, completed. *)
Definition completedGoalDb : Db :=
  (createGoal sampleClock 7 (sampleGoalBody 100 100) emptyDb).1.

(** A goal update that supplies only a target amount. *)
Definition onlyTarget (target : jsnum) : goalBody :=
  {| gb_name := SUndefined; gb_targetAmount := target;
     gb_currentAmount := NUndefined; gb_deadline := DUndefined;
     gb_category := SUndefined; gb_description := SUndefined;
     gb_status := SUndefined |}.

Definition with_targetAmount (b : goalBody) (target : jsnum) : goalBody :=
  {| gb_name := gb_name b; gb_targetAmount := target;
     gb_currentAmount := gb_currentAmount b; gb_deadline := gb_deadline b;
     gb_category := gb_category b; gb_description := gb_description b;
     gb_status := gb_status b |}.

Definition sampleTransactionBody (type : string) (amount : Q) (m : Z)
  : transactionBody :=
  {| tb_type := SString type;
     tb_category := SString "geral";
     tb_description := SString "lançamento";
     tb_amount := NNumber amount;
     tb_date := DParsed {| getFullYear := 2024; getMonth := m; getDate := 3 |} |}.

(** User 7 owns transactions 1 to 3: income 100 and expense 40 in
    January 2024, income 50 in February 2024. *)
Definition sampleLedgerDb : Db :=
  (createTransaction 7 (sampleTransactionBody "income" 50 1)
     (createTransaction 7 (sampleTransactionBody "expense" 40 0)
        (createTransaction 7 (sampleTransactionBody "income" 100 0)
           activeGoalDb).1).1).1.

(** A transaction update that supplies only an amount. *)
Definition onlyAmount (amount : jsnum) : transactionBody :=
  {| tb_type := SUndefined; tb_category := SUndefined;
     tb_description := SUndefined; tb_amount := amount;
     tb_date := DUndefined |}.

(** The record [k] of a table is missing or belongs to someone else. *)
Definition not_owned {A} (owner : A → N) (table : gmap N A) (k : N)
    (userId : N) : Prop :=
  match table !! k with
  | None => True
  | Some r => owner r ≠ userId
  end.

Definition sampleReturnedGoal : goalWithProgress :=
  withProgress
    {| goal_id := 1; goal_userId := 7; goal_name := "Viagem";
       targetAmount := 200; currentAmount := 50;
       deadline := {| getFullYear := 2024; getMonth := 6; getDate := 1 |};
       goal_category := None; goal_description := None;
       status := "active"; createdAt := 1000 |}.

Definition sampleToday : Date :=
  {| getFullYear := 2024; getMonth := 1; getDate := 15 |}.

Definition sampleOldestBucket : monthBucket :=
  {| month := 8; year := 2023; label := "set";
     income := 0%Q; expenses := 0%Q |}.

(** ** Rows, keys and owners *)

(** A stored goal sits under its own id, below the auto-increment
    counter, with one of the three statuses. *)
Definition goal_row_ok (db : Db) (k : N) (g : goal) : Prop :=
  goal_id g = k ∧ (k < nextGoalId db)%N ∧ In (status g) statuses.

(** A stored transaction sits under its own id, below the counter, with
    a positive amount. *)
Definition transaction_row_ok (db : Db) (k : N) (t : transaction) : Prop :=
  tx_id t = k ∧ (k < nextTransactionId db)%N ∧ (0 < tx_amount t)%Q.

Definition db_wf (db : Db) : Prop :=
  map_Forall (goal_row_ok db) (goals db)
  ∧ map_Forall (transaction_row_ok db) (transactions db).



(** Transaction 2 of the sample ledger. *)
Definition sampleExpense : transaction :=
  {| tx_id := 2; tx_userId := 7; tx_type := "expense";
     tx_category := "geral"; tx_description := "lançamento";
     tx_amount := 40; tx_date := mkDate 2024 0 3 |}.

(** ** The list of transactions *)


Definition tx_date_ge (a b : transaction) : Prop :=
  Date_leb (tx_date b) (tx_date a) = true.

#[global] Instance tx_date_ge_dec : RelDecision tx_date_ge.
Proof. intros a b. unfold tx_date_ge. apply _. Defined.


(** The goals of three requests of user 7, created at times 10, 20
    and 30. *)
Definition threeGoalsDb : Db :=
  (createGoal {| now := sampleToday; timestamp := 30 |} 7 (sampleGoalBody 300 0)
     (createGoal {| now := sampleToday; timestamp := 20 |} 7
        (sampleGoalBody 200 0)
        (createGoal {| now := sampleToday; timestamp := 10 |} 7
           (sampleGoalBody 100 0) emptyDb).1).1).1.

Definition sampleOldestGoal : goal :=
  {| goal_id := 1; goal_userId := 7; goal_name := "Viagem";
     targetAmount := 100; currentAmount := 0;
     deadline := {| getFullYear := 2024; getMonth := 6; getDate := 1 |};
     goal_category := None; goal_description := None;
     status := "active"; createdAt := 10 |}.




(** ** The pages *)

(** [`${id}`] for an id: the decimal digits of a non-negative integer,
    as the pages write it into [/api/goals/${goalId}] and
    [/api/transactions/${id}]. *)
Definition idToString (id : N) : string :=
  DecimalString.NilEmpty.string_of_uint (N.to_uint id).

(** [escapeHtml] of dashboard.js: each of the five characters of the
    map is replaced by its entity.  Strings are strings of bytes; the
    five characters are ASCII, and no byte of a longer UTF-8 character
    is one of them. *)
Definition escapeChar (m : ascii) : string :=
  if Ascii.eqb m "&" then "&amp;"
  else if Ascii.eqb m "<" then "&lt;"
  else if Ascii.eqb m ">" then "&gt;"
  else if Ascii.eqb m (ascii_of_nat 34) then "&quot;"
  else if Ascii.eqb m "'" then "&#039;"
  else String m EmptyString.

Fixpoint escapeHtml (text : string) : string :=
  match text with
  | EmptyString => EmptyString
  | String m rest => escapeChar m +:+ escapeHtml rest
  end.

(** The characters the pattern of [escapeHtml] matches: ampersand, angle
    brackets, double and single quote. *)
Definition isHtmlSpecial (c : ascii) : bool :=
  Ascii.eqb c "&" || Ascii.eqb c "<" || Ascii.eqb c ">"
  || Ascii.eqb c (ascii_of_nat 34) || Ascii.eqb c "'".

(** The characters that open or close markup or an attribute value. *)
Definition isMarkup (c : ascii) : bool :=
  Ascii.eqb c "<" || Ascii.eqb c ">"
  || Ascii.eqb c (ascii_of_nat 34) || Ascii.eqb c "'".

Fixpoint occurs (p : ascii → bool) (s : string) : bool :=
  match s with
  | EmptyString => false
  | String c rest => p c || occurs p rest
  end.










(** The totals of a bucket are not negative. *)
Definition bucket_nonneg (m : monthBucket) : Prop :=
  (0 <= income m)%Q ∧ (0 <= expenses m)%Q.

(** ** Accounts and sessions *)

Record user := mkUser {
  user_id : N;
  user_email : string;
  user_name : string;
  user_password : string;           (* the bcrypt hash *)
  user_profilePhoto : option string;
  user_createdAt : N
}.

Record Accounts := mkAccounts {
  users : gmap N user;
  nextUserId : N
}.

Definition noAccounts : Accounts := {| users := ∅; nextUserId := 1%N |}.

(** [req.session] of one browser. *)
Record Session := mkSession {
  session_userId : option N;
  session_userName : option string
}.

Definition noSession : Session :=
  {| session_userId := None; session_userName := None |}.

(** The bcrypt library: [hash] works from the password and the salt it
    draws, [compare] checks a password against a hash. *)
Record Bcrypt := mkBcrypt {
  bcrypt_hash : string → N → string;
  bcrypt_compare : string → string → bool
}.

(** A password matches every hash made from it. *)
Definition bcrypt_sound (bc : Bcrypt) : Prop :=
  ∀ password salt,
    bcrypt_compare bc password (bcrypt_hash bc password salt) = true.

Inductive authBody :=
| AuthError (error : string)
| AuthMessage (message : string)
| AuthUser (message : string) (id : N) (email name : string)
| AuthMe (id : N) (email name : string) (profilePhoto : option string)
    (createdAt : N)
| AuthCheck (authenticated : bool) (userId : option N)
    (userName : option string)
| AuthRedirect (location : string).

Record authResponse := mkAuthResponse {
  auth_status : Z;
  auth_json : authBody
}.

(** [isAuthenticated]: the user id of the session when it is truthy. *)
Definition isAuthenticated (sess : Session) : option N :=
  match session_userId sess with
  | Some userId => if (userId =? 0)%N then None else Some userId
  | None => None
  end.

(** A route behind [isAuthenticated]. *)
Definition serve (sess : Session) (clk : Clock) (r : request) (db : Db)
  : Db * response :=
  match isAuthenticated sess with
  | Some userId => handle clk userId r db
  | None => (db, {| statusCode := 401; json := ErrorBody "Não autenticado" |})
  end.

(** [prisma.user.findUnique({ where: { email } })] *)
Definition findUserByEmail (email : string) (acc : Accounts) : option user :=
  head (List.filter (λ u, String.eqb (user_email u) email) (rows (users acc))).

Record registerBody := mkRegisterBody {
  rb_email : jsstr;
  rb_name : jsstr;
  rb_password : jsstr;
  rb_profilePhoto : jsstr
}.

(** [profilePhoto.length * 0.75 > 2 * 1024 * 1024] *)
Definition photoTooLarge (profilePhoto : string) : bool :=
  Qltb (2 * 1024 * 1024)
    (inject_Z (Z.of_nat (String.length profilePhoto)) * (3 # 4))%Q.

(** The checks of POST /api/auth/register on the fields alone. *)
Definition register_error (b : registerBody) : option string :=
  if negb (str_truthy (rb_email b)) || negb (str_truthy (rb_name b))
     || negb (str_truthy (rb_password b))
  then Some "Todos os campos são obrigatórios"
  else if (String.length (str_value (rb_password b)) <? 6)%nat
  then Some "A senha deve ter no mínimo 6 caracteres"
  else if str_truthy (rb_profilePhoto b)
  then
    if negb (String.prefix "data:image/" (str_value (rb_profilePhoto b)))
    then Some "Formato de imagem inválido"
    else if photoTooLarge (str_value (rb_profilePhoto b))
    then Some "Imagem muito grande. Máximo 2MB"
    else None
  else None.

(** POST /api/auth/register *)
Definition register (bc : Bcrypt) (salt : N) (clk : Clock) (b : registerBody)
    (acc : Accounts) (sess : Session) : Accounts * Session * authResponse :=
  match register_error b with
  | Some e => (acc, sess, {| auth_status := 400; auth_json := AuthError e |})
  | None =>
    match findUserByEmail (str_value (rb_email b)) acc with
    | Some existingUser =>
      (acc, sess,
       {| auth_status := 400; auth_json := AuthError "Email já cadastrado" |})
    | None =>
      let hashedPassword :=
        bcrypt_hash bc (str_value (rb_password b)) salt in
      let u := {| user_id := nextUserId acc;
                  user_email := str_value (rb_email b);
                  user_name := str_value (rb_name b);
                  user_password := hashedPassword;
                  user_profilePhoto := str_or_null (rb_profilePhoto b);
                  user_createdAt := timestamp clk |} in
      ({| users := <[nextUserId acc := u]> (users acc);
          nextUserId := (nextUserId acc + 1)%N |},
       {| session_userId := Some (user_id u);
          session_userName := Some (user_name u) |},
       {| auth_status := 200;
          auth_json := AuthUser "Usuário registrado com sucesso!"
                         (user_id u) (user_email u) (user_name u) |})
    end
  end.

(** POST /api/auth/login *)
Definition login (bc : Bcrypt) (email password : jsstr)
    (acc : Accounts) (sess : Session) : Session * authResponse :=
  if negb (str_truthy email) || negb (str_truthy password)
  then (sess, {| auth_status := 400;
                 auth_json := AuthError "Email e senha são obrigatórios" |})
  else
    match findUserByEmail (str_value email) acc with
    | None =>
      (sess, {| auth_status := 401;
                auth_json := AuthError "Email ou senha inválidos" |})
    | Some u =>
      if negb (bcrypt_compare bc (str_value password) (user_password u))
      then (sess, {| auth_status := 401;
                     auth_json := AuthError "Email ou senha inválidos" |})
      else ({| session_userId := Some (user_id u);
               session_userName := Some (user_name u) |},
            {| auth_status := 200;
               auth_json := AuthUser "Login realizado com sucesso!"
                              (user_id u) (user_email u) (user_name u) |})
    end.

(** POST /api/auth/logout: the session is destroyed. *)
Definition logout (sess : Session) : Session * authResponse :=
  (noSession,
   {| auth_status := 200;
      auth_json := AuthMessage "Logout realizado com sucesso!" |}).

(** GET /api/auth/me *)
Definition me (acc : Accounts) (sess : Session) : authResponse :=
  match isAuthenticated sess with
  | None => {| auth_status := 401; auth_json := AuthError "Não autenticado" |}
  | Some userId =>
    match users acc !! userId with
    | None =>
      {| auth_status := 404; auth_json := AuthError "Usuário não encontrado" |}
    | Some u =>
      {| auth_status := 200;
         auth_json := AuthMe (user_id u) (user_email u) (user_name u)
                        (user_profilePhoto u) (user_createdAt u) |}
    end
  end.

(** GET /api/auth/check *)
Definition check (sess : Session) : authResponse :=
  match isAuthenticated sess with
  | Some _ =>
    {| auth_status := 200;
       auth_json := AuthCheck true (session_userId sess)
                      (session_userName sess) |}
  | None =>
    {| auth_status := 200; auth_json := AuthCheck false None None |}
  end.

(** GET / *)
Definition root (sess : Session) : authResponse :=
  match isAuthenticated sess with
  | Some _ =>
    {| auth_status := 302; auth_json := AuthRedirect "/dashboard.html" |}
  | None => {| auth_status := 302; auth_json := AuthRedirect "/login.html" |}
  end.

(** The accounts registration can bring about. *)
Inductive accounts_reachable (bc : Bcrypt) : Accounts → Prop :=
| accounts_none : accounts_reachable bc noAccounts
| accounts_register salt clk b acc sess :
    accounts_reachable bc acc →
    accounts_reachable bc (register bc salt clk b acc sess).1.1.

(** Users sit under their own id, which is not zero and is below the
    counter, and no two of them share an e-mail address. *)
Definition accounts_ok (acc : Accounts) : Prop :=
  (0 < nextUserId acc)%N
  ∧ map_Forall (λ k u, user_id u = k ∧ (0 < k)%N ∧ (k < nextUserId acc)%N)
      (users acc)
  ∧ ∀ k1 k2 u1 u2,
      users acc !! k1 = Some u1 → users acc !! k2 = Some u2 →
      user_email u1 = user_email u2 → k1 = k2.

(** The stored password of a user is a hash of a password of six
    characters or more. *)
Definition password_hashed (bc : Bcrypt) (u : user) : Prop :=
  ∃ password salt,
    user_password u = bcrypt_hash bc password salt
    ∧ (6 <= String.length password)%nat.

(** A stand-in for bcrypt in the examples: the hash is the password
    behind a fixed prefix, whatever the salt. *)
Definition sampleBcrypt : Bcrypt :=
  {| bcrypt_hash := λ password salt, String "$" password;
     bcrypt_compare := λ password hash, String.eqb (String "$" password) hash |}.

Definition sampleRegisterBody : registerBody :=
  {| rb_email := SString "ana@example.com";
     rb_name := SString "Ana";
     rb_password := SString "segredo1";
     rb_profilePhoto := SUndefined |}.

Definition sampleAccounts : Accounts :=
  (register sampleBcrypt 5 sampleClock sampleRegisterBody noAccounts
     noSession).1.1.

Definition sampleUser : user :=
  {| user_id := 1; user_email := "ana@example.com"; user_name := "Ana";
     user_password := "$segredo1"; user_profilePhoto := None;
     user_createdAt := 1000 |}.

(** The goal with another current amount and everything else as it is. *)
Definition with_currentAmount (g : goal) (q : Q) : goal :=
  goal_update
    {| ud_name := None; ud_targetAmount := None; ud_currentAmount := Some q;
       ud_deadline := None; ud_category := None; ud_description := None;
       ud_status := None |} g.

(** * Properties *)

(** ** Comparisons and request values *)

Lemma Qltb_lt (a b : Q) : Qltb a b = true ↔ (a < b)%Q.
Proof.
  unfold Qltb. rewrite negb_true_iff, <- not_true_iff_false, Qle_bool_iff.
  split; [apply Qnot_le_lt | apply Qlt_not_le].
Qed.

Lemma Qltb_ge (a b : Q) : Qltb a b = false ↔ (b <= a)%Q.
Proof. unfold Qltb. rewrite negb_false_iff. apply Qle_bool_iff. Qed.

Lemma Qle_bool_lt (a b : Q) : Qle_bool a b = false ↔ (b < a)%Q.
Proof.
  rewrite <- not_true_iff_false, Qle_bool_iff.
  split; [apply Qnot_le_lt | apply Qlt_not_le].
Qed.

(** An amount the progress route accepts is a positive number. *)
Lemma accepted_amount (amount : jsnum) :
  negb (num_truthy amount) || isNaN amount || num_lt0 amount = false →
  ∃ q, amount = NNumber q ∧ (0 < q)%Q.
Proof.
  destruct amount as [|q|]; simpl; try discriminate.
  rewrite !orb_false_iff, negb_false_iff, negb_true_iff.
  intros [[Hnz _] Hlt]. exists q. split; [reflexivity|].
  apply Qltb_ge in Hlt. apply Qle_lteq in Hlt as [Hlt | Heq]; [exact Hlt|].
  symmetry in Heq. apply Qeq_bool_iff in Heq. congruence.
Qed.

Lemma messages_differ : goalCompletedMessage ≠ progressUpdatedMessage.
Proof. discriminate. Qed.

(** ** The progress route *)

(** What a successful PUT /api/goals/:id/amount did. *)
Lemma updateProgress_ok userId id amount db db' resp :
  updateProgress userId id amount db = (db', resp) →
  statusCode resp = 200 →
  ∃ goalId existingGoal q,
    validateIntegerId id = Some goalId
    ∧ goals db !! goalId = Some existingGoal
    ∧ goal_userId existingGoal = userId
    ∧ amount = NNumber q ∧ (0 < q)%Q
    ∧ let newStatus :=
        if Qle_bool (targetAmount existingGoal) q
        then "completed" else status existingGoal in
      let g :=
        goal_update
          {| ud_name := None; ud_targetAmount := None;
             ud_currentAmount := Some q;
             ud_deadline := None; ud_category := None;
             ud_description := None; ud_status := Some newStatus |}
          existingGoal in
      db' = with_goals db (<[goalId := g]> (goals db))
      ∧ resp = ok (MessageGoalBody
                     (if String.eqb newStatus "completed"
                      then goalCompletedMessage else progressUpdatedMessage)
                     (withProgress g)).
Proof.
  unfold updateProgress. intros Hrun Hcode.
  destruct (validateIntegerId id) as [goalId|]; [|by inversion Hrun; subst].
  destruct (negb (num_truthy amount) || isNaN amount || num_lt0 amount) eqn:Hval;
    [by inversion Hrun; subst|].
  destruct (accepted_amount _ Hval) as (q & -> & Hq).
  destruct (goals db !! goalId) as [existingGoal|] eqn:Hget;
    [|by inversion Hrun; subst].
  destruct (goal_userId existingGoal =? userId)%N eqn:Hown; simpl in Hrun;
    [|by inversion Hrun; subst].
  apply N.eqb_eq in Hown. inversion Hrun; subst.
  exists goalId, existingGoal, q. by repeat split.
Qed.

(** C3: a successful progress update stores the amount as the current
    amount; the status becomes completed when the amount reaches the
    target and is otherwise left as it was, so a completed goal stays
    completed even below the target. *)
Theorem updateProgress_amount_and_status userId id amount db db' resp :
  updateProgress userId id amount db = (db', resp) →
  statusCode resp = 200 →
  ∃ goalId existingGoal g q,
    validateIntegerId id = Some goalId
    ∧ goals db !! goalId = Some existingGoal
    ∧ amount = NNumber q
    ∧ goals db' !! goalId = Some g
    ∧ currentAmount g = q
    ∧ ((targetAmount existingGoal <= q)%Q → status g = "completed")
    ∧ ((q < targetAmount existingGoal)%Q → status g = status existingGoal)
    ∧ (status existingGoal = "completed" → status g = "completed").
Proof.
  intros Hrun Hcode.
  destruct (updateProgress_ok _ _ _ _ _ _ Hrun Hcode)
    as (goalId & existingGoal & q & Hid & Hget & _ & -> & _ & Hdb & _).
  simpl in Hdb. subst db'.
  eexists goalId, existingGoal, _, q.
  split; [exact Hid|]. split; [exact Hget|]. split; [reflexivity|].
  split; [apply lookup_insert_eq|].
  repeat split.
  - simpl. intros Hle. apply Qle_bool_iff in Hle. by rewrite Hle.
  - simpl. intros Hlt. apply Qle_bool_lt in Hlt. by rewrite Hlt.
  - simpl. intros Hst. by destruct (Qle_bool _ _).
Qed.

(** The two messages of the progress route follow the status written. *)
Lemma updateProgress_message_cases userId id amount db db' resp :
  updateProgress userId id amount db = (db', resp) →
  statusCode resp = 200 →
  ∃ goalId after,
    validateIntegerId id = Some goalId
    ∧ goals db' !! goalId = Some after
    ∧ message_of resp
      = Some (if String.eqb (status after) "completed"
              then goalCompletedMessage else progressUpdatedMessage).
Proof.
  intros Hrun Hcode.
  destruct (updateProgress_ok _ _ _ _ _ _ Hrun Hcode)
    as (goalId & existingGoal & q & Hid & Hget & _ & -> & _ & Hdb & Hresp).
  simpl in Hdb, Hresp. subst db' resp.
  eexists goalId, _. split; [exact Hid|].
  split; [apply lookup_insert_eq|]. reflexivity.
Qed.

(** C4, as stated, fails: a goal that is already completed and is set
    below its target keeps its status, yet the response congratulates. *)
Lemma updateProgress_message_on_transition_fails :
  ¬ congratulates_on_transition_only 7 "1" (NNumber 10) completedGoalDb.
Proof.
  intros H. unfold congratulates_on_transition_only in H.
  edestruct (H 1%N) as [Hto _]; [reflexivity ..|].
  destruct Hto as [Hbefore _]; [reflexivity|].
  by apply Hbefore.
Qed.

(** C4 (amended): a successful progress update answers with the
    goal-completed message exactly when the goal is completed after the
    call, whether or not it already was before, and with the
    progress-updated message otherwise. *)
Theorem updateProgress_message userId id amount db db' resp :
  updateProgress userId id amount db = (db', resp) →
  statusCode resp = 200 →
  ∃ goalId after,
    validateIntegerId id = Some goalId
    ∧ goals db' !! goalId = Some after
    ∧ (message_of resp = Some goalCompletedMessage
       ↔ status after = "completed")
    ∧ (message_of resp = Some progressUpdatedMessage
       ↔ status after ≠ "completed").
Proof.
  intros Hrun Hcode.
  destruct (updateProgress_message_cases _ _ _ _ _ _ Hrun Hcode)
    as (goalId & after & Hid & Hget & Hmsg).
  exists goalId, after. split; [exact Hid|]. split; [exact Hget|].
  rewrite Hmsg.
  destruct (String.eqb (status after) "completed") eqn:Hst.
  - apply String.eqb_eq in Hst. repeat split; try done.
  - apply String.eqb_neq in Hst. repeat split; try done.
Qed.

(** C5: the progress route rejects an amount that is zero, missing,
    negative or not numeric with a 400, and leaves the store as it was. *)
Theorem updateProgress_rejects_amount userId id amount db :
  amount = NUndefined ∨ amount = NText
  ∨ (∃ q, amount = NNumber q ∧ (q <= 0)%Q) →
  ∃ e, updateProgress userId id amount db = (db, badRequest e).
Proof.
  intros Hbad. unfold updateProgress.
  destruct (validateIntegerId id) as [goalId|]; [|by eexists].
  assert (negb (num_truthy amount) || isNaN amount || num_lt0 amount = true)
    as ->; [|by eexists].
  destruct Hbad as [-> | [-> | (q & -> & Hq)]]; try reflexivity.
  simpl. apply Qle_lteq in Hq as [Hlt | Heq].
  - apply Qltb_lt in Hlt. rewrite Hlt. apply orb_true_r.
  - apply Qeq_bool_iff in Heq. by rewrite Heq.
Qed.

Lemma updateProgress_rejects_amount_witness :
  ∃ e, updateProgress 7 "1" (NNumber 0) activeGoalDb
       = (activeGoalDb, badRequest e).
Proof.
  apply (updateProgress_rejects_amount 7 "1" (NNumber 0) activeGoalDb).
  right. right. exists 0%Q. split; [reflexivity | discriminate].
Defined.

(** ** Goal updates *)

(** PUT /api/goals/:id on a goal the caller owns. *)
Lemma updateGoal_owned clk userId id b db goalId existingGoal :
  validateIntegerId id = Some goalId →
  goals db !! goalId = Some existingGoal →
  goal_userId existingGoal = userId →
  updateGoal clk userId id b db
  = match goalUpdate_error (now clk) b with
    | Some e => (db, badRequest e)
    | None =>
      let g := goal_update (goalUpdateData_of existingGoal b) existingGoal in
      (with_goals db (<[goalId := g]> (goals db)),
       ok (MessageGoalBody "Meta atualizada com sucesso!" (withProgress g)))
    end.
Proof.
  intros Hid Hget Hown. unfold updateGoal. rewrite Hid, Hget.
  apply N.eqb_eq in Hown. by rewrite Hown.
Qed.

(** What a successful PUT /api/goals/:id did. *)
Lemma updateGoal_ok clk userId id b db db' resp :
  updateGoal clk userId id b db = (db', resp) →
  statusCode resp = 200 →
  ∃ goalId existingGoal,
    validateIntegerId id = Some goalId
    ∧ goals db !! goalId = Some existingGoal
    ∧ goal_userId existingGoal = userId
    ∧ goalUpdate_error (now clk) b = None
    ∧ let g := goal_update (goalUpdateData_of existingGoal b) existingGoal in
      db' = with_goals db (<[goalId := g]> (goals db))
      ∧ resp = ok (MessageGoalBody "Meta atualizada com sucesso!"
                     (withProgress g)).
Proof.
  unfold updateGoal. intros Hrun Hcode.
  destruct (validateIntegerId id) as [goalId|]; [|by inversion Hrun; subst].
  destruct (goals db !! goalId) as [existingGoal|] eqn:Hget;
    [|by inversion Hrun; subst].
  destruct (goal_userId existingGoal =? userId)%N eqn:Hown; simpl in Hrun;
    [|by inversion Hrun; subst].
  destruct (goalUpdate_error (now clk) b) eqn:Herr;
    [by inversion Hrun; subst|].
  apply N.eqb_eq in Hown. inversion Hrun; subst.
  by exists goalId, existingGoal.
Qed.

(** A status that passed the check is one of the three. *)
Lemma goalUpdate_error_status today b :
  goalUpdate_error today b = None →
  str_truthy (gb_status b) = true →
  In (str_value (gb_status b)) statuses.
Proof.
  unfold goalUpdate_error. intros Herr Hst.
  repeat match type of Herr with
         | (if ?c then _ else _) = None => destruct c eqn:?; [discriminate|]
         | match ?c with Some _ => _ | None => _ end = None =>
           destruct c eqn:?; [discriminate|]
         end.
  rewrite Hst in *. simpl in *.
  destruct (gb_status b) as [| |s]; try discriminate.
  match goal with
  | H : negb (includes _ _) = false |- _ =>
    apply negb_false_iff in H; simpl in H; revert H
  end.
  simpl.
  destruct (String.eqb_spec s "active") as [->|_]; [auto|].
  destruct (String.eqb_spec s "completed") as [->|_]; [auto|].
  destruct (String.eqb_spec s "cancelled") as [->|_]; [auto|].
  discriminate.
Qed.

(** C2: on a successful goal update without a status, the stored status
    becomes completed when the resulting current amount reaches the
    resulting target, and goes back from completed to active when it is
    below; a supplied valid status is stored as it is. *)
Theorem updateGoal_status clk userId id b db db' resp :
  updateGoal clk userId id b db = (db', resp) →
  statusCode resp = 200 →
  ∃ goalId old new,
    validateIntegerId id = Some goalId
    ∧ goals db !! goalId = Some old
    ∧ goals db' !! goalId = Some new
    ∧ currentAmount new
      = (if num_defined (gb_currentAmount b)
         then parseFloat (gb_currentAmount b) else currentAmount old)
    ∧ targetAmount new
      = (if num_truthy (gb_targetAmount b)
         then parseFloat (gb_targetAmount b) else targetAmount old)
    ∧ (str_truthy (gb_status b) = false →
       ((targetAmount new <= currentAmount new)%Q → status new = "completed")
       ∧ (status old = "completed" →
          (currentAmount new < targetAmount new)%Q → status new = "active")
       ∧ (status old ≠ "completed" →
          (currentAmount new < targetAmount new)%Q → status new = status old))
    ∧ (str_truthy (gb_status b) = true →
       In (str_value (gb_status b)) statuses
       ∧ status new = str_value (gb_status b)).
Proof.
  intros Hrun Hcode.
  destruct (updateGoal_ok _ _ _ _ _ _ _ Hrun Hcode)
    as (goalId & old & Hid & Hget & _ & Herr & Hdb & _).
  simpl in Hdb. subst db'.
  eexists goalId, old, _.
  split; [exact Hid|]. split; [exact Hget|].
  split; [apply lookup_insert_eq|].
  assert (targetAmount (goal_update (goalUpdateData_of old b) old)
          = if num_truthy (gb_targetAmount b)
            then parseFloat (gb_targetAmount b) else targetAmount old) as Htgt
    by (simpl; by destruct (num_truthy _)).
  assert (currentAmount (goal_update (goalUpdateData_of old b) old)
          = if num_defined (gb_currentAmount b)
            then parseFloat (gb_currentAmount b) else currentAmount old) as Hcur
    by (simpl; by destruct (num_defined _)).
  split; [exact Hcur|]. split; [exact Htgt|].
  rewrite Htgt, Hcur. simpl. unfold update_status.
  split.
  - intros ->. simpl. repeat split.
    + intros Hle. apply Qle_bool_iff in Hle. by rewrite Hle.
    + intros Hold Hlt. pose proof Hlt as Hlt'.
      apply Qle_bool_lt in Hlt. apply Qltb_lt in Hlt'.
      by rewrite Hlt, Hold, Hlt'.
    + intros Hold Hlt. apply Qle_bool_lt in Hlt. rewrite Hlt.
      apply String.eqb_neq in Hold. by rewrite Hold.
  - intros Hst. split; [by eapply goalUpdate_error_status|].
    by rewrite Hst.
Qed.

Lemma updateGoal_status_witness :
  ∃ goalId old new,
    validateIntegerId "1" = Some goalId
    ∧ goals activeGoalDb !! goalId = Some old
    ∧ goals (updateGoal sampleClock 7 "1" (sampleGoalBody 200 250)
               activeGoalDb).1 !! goalId = Some new
    ∧ currentAmount new = 250%Q
    ∧ status new = "completed".
Proof.
  destruct (updateGoal_status sampleClock 7 "1" (sampleGoalBody 200 250)
              activeGoalDb
              (updateGoal sampleClock 7 "1" (sampleGoalBody 200 250)
                 activeGoalDb).1
              (updateGoal sampleClock 7 "1" (sampleGoalBody 200 250)
                 activeGoalDb).2)
    as (goalId & old & new & Hid & Hold & Hnew & Hcur & Htgt & Hauto & _);
    [reflexivity | reflexivity |].
  exists goalId, old, new. repeat split; try assumption.
  apply Hauto; [reflexivity|]. rewrite Hcur, Htgt. discriminate.
Defined.

Lemma updateProgress_amount_and_status_witness :
  ∃ goalId existingGoal g q,
    validateIntegerId "1" = Some goalId
    ∧ goals activeGoalDb !! goalId = Some existingGoal
    ∧ NNumber 200 = NNumber q
    ∧ goals (updateProgress 7 "1" (NNumber 200) activeGoalDb).1 !! goalId
      = Some g
    ∧ currentAmount g = q
    ∧ ((targetAmount existingGoal <= q)%Q → status g = "completed")
    ∧ ((q < targetAmount existingGoal)%Q → status g = status existingGoal)
    ∧ (status existingGoal = "completed" → status g = "completed").
Proof.
  apply (updateProgress_amount_and_status 7 "1" (NNumber 200) activeGoalDb
           (updateProgress 7 "1" (NNumber 200) activeGoalDb).1
           (updateProgress 7 "1" (NNumber 200) activeGoalDb).2);
    reflexivity.
Defined.

Lemma updateProgress_message_witness :
  ∃ goalId after,
    validateIntegerId "1" = Some goalId
    ∧ goals (updateProgress 7 "1" (NNumber 10) completedGoalDb).1 !! goalId
      = Some after
    ∧ (message_of (updateProgress 7 "1" (NNumber 10) completedGoalDb).2
       = Some goalCompletedMessage ↔ status after = "completed")
    ∧ (message_of (updateProgress 7 "1" (NNumber 10) completedGoalDb).2
       = Some progressUpdatedMessage ↔ status after ≠ "completed").
Proof.
  apply (updateProgress_message 7 "1" (NNumber 10) completedGoalDb
           (updateProgress 7 "1" (NNumber 10) completedGoalDb).1
           (updateProgress 7 "1" (NNumber 10) completedGoalDb).2);
    reflexivity.
Defined.

(** C9, as stated, fails: a goal update that supplies the target amount
    zero on an owned goal is answered with a 200. *)
Lemma updateGoal_zero_target_is_accepted :
  ¬ rejects_nonpositive_target sampleClock 7 "1" (onlyTarget (NNumber 0))
      activeGoalDb.
Proof.
  intros H. destruct (H 0%Q) as [e He]; [reflexivity | discriminate |].
  vm_compute in He. discriminate He.
Qed.

Lemma goalUpdate_error_target today b :
  (gb_targetAmount b = NText
   ∨ ∃ q, gb_targetAmount b = NNumber q ∧ (q < 0)%Q) →
  goalUpdate_error today b = Some "Valor alvo deve ser um número positivo".
Proof.
  unfold goalUpdate_error. intros [-> | (q & -> & Hq)]; [reflexivity|].
  simpl.
  assert (Qeq_bool q 0 = false) as ->.
  { apply not_true_iff_false. intros Heq. apply Qeq_bool_iff in Heq.
    rewrite Heq in Hq. by apply Qlt_irrefl in Hq. }
  assert (Qle_bool q 0 = true) as ->; [|reflexivity].
  apply Qle_bool_iff. by apply Qlt_le_weak.
Qed.

(** C9 (amended): a goal update that supplies a negative or non-numeric
    target amount fails and leaves the store as it was, with the 400 of
    the target check when the goal exists and is the caller's; a supplied
    target amount of zero is taken as not supplied. *)
Theorem updateGoal_target_validation clk userId id b db :
  ((gb_targetAmount b = NText
    ∨ ∃ q, gb_targetAmount b = NNumber q ∧ (q < 0)%Q) →
   (∃ resp, updateGoal clk userId id b db = (db, resp)
            ∧ (statusCode resp = 400 ∨ statusCode resp = 404))
   ∧ (∀ goalId g,
        validateIntegerId id = Some goalId →
        goals db !! goalId = Some g →
        goal_userId g = userId →
        updateGoal clk userId id b db
        = (db, badRequest "Valor alvo deve ser um número positivo")))
  ∧ (∀ q, gb_targetAmount b = NNumber q → (q == 0)%Q →
       updateGoal clk userId id b db
       = updateGoal clk userId id (with_targetAmount b NUndefined) db).
Proof.
  split.
  - intros Hbad. pose proof (goalUpdate_error_target (now clk) b Hbad) as Herr.
    split.
    + unfold updateGoal. rewrite Herr.
      destruct (validateIntegerId id); [|eexists; split; [done|by left]].
      destruct (goals db !! _); [|eexists; split; [done|by right]].
      destruct (negb _); eexists; (split; [done|]); [by right | by left].
    + intros goalId g Hid Hget Hown.
      rewrite (updateGoal_owned _ _ _ _ _ _ _ Hid Hget Hown). by rewrite Herr.
  - intros q Hb Hq. apply Qeq_bool_iff in Hq.
    unfold updateGoal, goalUpdate_error, goalUpdateData_of.
    rewrite Hb. simpl. by rewrite Hq.
Qed.

(** ** Transaction updates *)

(** C10: a transaction update that supplies the amount zero, on a
    transaction the caller owns and with the other fields valid,
    succeeds and keeps the stored amount. *)
Theorem updateTransaction_zero_amount userId id b db transactionId t q :
  validateIntegerId id = Some transactionId →
  transactions db !! transactionId = Some t →
  tx_userId t = userId →
  tb_amount b = NNumber q → (q == 0)%Q →
  (str_truthy (tb_type b) = false
   ∨ tb_type b = SString "expense" ∨ tb_type b = SString "income") →
  tb_date b ≠ DInvalid →
  ∃ db' t',
    updateTransaction userId id b db
    = (db', ok (MessageTransactionBody "Transação atualizada com sucesso!" t'))
    ∧ transactions db' !! transactionId = Some t'
    ∧ tx_amount t' = tx_amount t.
Proof.
  intros Hid Hget Hown Hamount Hq Htype Hdate.
  unfold updateTransaction. rewrite Hid, Hget.
  apply N.eqb_eq in Hown. rewrite Hown. simpl.
  assert (str_truthy (tb_type b) && negb (str_is (tb_type b) "expense")
          && negb (str_is (tb_type b) "income") = false) as ->.
  { destruct Htype as [-> | [-> | ->]]; reflexivity. }
  apply Qeq_bool_iff in Hq. rewrite Hamount. simpl. rewrite Hq. simpl.
  destruct (tb_date b); [|done|];
    (eexists _, _; split; [reflexivity|];
     split; [apply lookup_insert_eq | reflexivity]).
Qed.

Lemma updateTransaction_zero_amount_witness :
  ∃ db' t',
    updateTransaction 7 "2" (onlyAmount (NNumber 0)) sampleLedgerDb
    = (db', ok (MessageTransactionBody "Transação atualizada com sucesso!" t'))
    ∧ transactions db' !! 2%N = Some t'
    ∧ tx_amount t' = 40%Q.
Proof.
  apply (updateTransaction_zero_amount 7 "2" (onlyAmount (NNumber 0))
           sampleLedgerDb 2%N
           {| tx_id := 2; tx_userId := 7; tx_type := "expense";
              tx_category := "geral"; tx_description := "lançamento";
              tx_amount := 40; tx_date := mkDate 2024 0 3 |} 0%Q);
    try reflexivity.
  - by left.
  - discriminate.
Defined.

Lemma updateGoal_target_validation_witness :
  updateGoal sampleClock 7 "1" (onlyTarget (NNumber (-5))) activeGoalDb
  = (activeGoalDb, badRequest "Valor alvo deve ser um número positivo")
  ∧ updateGoal sampleClock 7 "1" (onlyTarget (NNumber 0)) activeGoalDb
    = updateGoal sampleClock 7 "1"
        (with_targetAmount (onlyTarget (NNumber 0)) NUndefined) activeGoalDb.
Proof.
  split.
  - destruct (updateGoal_target_validation sampleClock 7 "1"
                (onlyTarget (NNumber (-5))) activeGoalDb) as [H _].
    destruct H as [_ H].
    + right. exists (-5)%Q. split; reflexivity.
    + eapply H; reflexivity.
  - destruct (updateGoal_target_validation sampleClock 7 "1"
                (onlyTarget (NNumber 0)) activeGoalDb) as [_ H].
    apply (H 0%Q); reflexivity.
Defined.

(** ** Ownership *)

Lemma not_owned_lookup {A} (owner : A → N) (table : gmap N A) k userId :
  not_owned owner table k userId →
  table !! k = None
  ∨ ∃ r, table !! k = Some r ∧ (owner r =? userId)%N = false.
Proof.
  unfold not_owned. destruct (table !! k) as [r|]; [|by left].
  intros Hne. right. exists r. split; [reflexivity|]. by apply N.eqb_neq.
Qed.


(** The progress route never succeeds on such a goal either: the amount
    check comes first, so the answer is its 400 or the 404, the same in
    both cases. *)
Lemma foreign_goal_progress userId id k amount db :
  validateIntegerId id = Some k →
  not_owned goal_userId (goals db) k userId →
  updateProgress userId id amount db
  = (db, if negb (num_truthy amount) || isNaN amount || num_lt0 amount
         then badRequest "Valor deve ser um número não-negativo"
         else notFound "Meta não encontrada").
Proof.
  intros Hid Hno. unfold updateProgress. rewrite Hid.
  destruct (negb (num_truthy amount) || isNaN amount || num_lt0 amount);
    [reflexivity|].
  by apply not_owned_lookup in Hno as [-> | (r & -> & ->)].
Qed.


(** ** The store invariants *)

Lemma positive_target (v : jsnum) :
  num_truthy v = true → isNaN v || num_le0 v = false →
  (0 < parseFloat v)%Q.
Proof.
  destruct v as [|q|]; simpl; try discriminate.
  intros _ Hle. exact (proj1 (Qle_bool_lt q 0) Hle).
Qed.














(** ** Progress *)

Lemma Math_round_nonneg (x : Q) : (0 <= x)%Q → 0 <= Math_round x.
Proof.
  intros Hx. unfold Math_round.
  change 0 with (Qfloor 0). apply Qfloor_resp_le.
  change 0%Q with (0 + 0)%Q at 1.
  apply Qplus_le_compat; [exact Hx | discriminate].
Qed.

Lemma percentage_nonneg (c t : Q) :
  (0 <= c)%Q → (0 < t)%Q → (0 <= c / t * 100)%Q.
Proof.
  intros Hc Ht. apply Qmult_le_0_compat; [|discriminate].
  apply Qmult_le_0_compat; [exact Hc|].
  apply Qlt_le_weak. by apply Qinv_lt_0_compat.
Qed.



Lemma elem_of_rows {A} (m : gmap N A) (x : A) :
  x ∈ rows m → ∃ k, m !! k = Some x.
Proof.
  unfold rows. intros Hx.
  apply list_elem_of_fmap in Hx as ([k v] & -> & Hkv).
  exists k. by apply elem_of_map_to_list.
Qed.

Lemma elem_of_List_filter {A} (p : A → bool) (l : list A) (x : A) :
  x ∈ List.filter p l ↔ x ∈ l ∧ p x = true.
Proof. rewrite !list_elem_of_In. apply filter_In. Qed.




Lemma activeGoalDb_reachable : reachable activeGoalDb.
Proof.
  exact (reachable_step sampleClock 7 (PostGoal (sampleGoalBody 200 50))
           emptyDb reachable_empty).
Qed.


(** ** The monthly chart *)

Lemma findIndex_Some {A} (p : A → bool) (l : list A) (i : nat) :
  findIndex p l = Some i → ∃ x, l !! i = Some x ∧ p x = true.
Proof.
  revert i. induction l as [|y l IH]; intros i; simpl; [discriminate|].
  destruct (p y) eqn:Hp.
  - intros [= <-]. by exists y.
  - destruct (findIndex p l) as [j|]; [|discriminate].
    intros [= <-]. by apply IH.
Qed.


(** A step of the loop over the transactions changes totals only. *)
Lemma accumulate_monthKeys months t :
  monthKeys (accumulate months t) = monthKeys months.
Proof.
  unfold accumulate, monthKeys.
  destruct (findIndex _ months) as [i|]; [|reflexivity].
  destruct (String.eqb _ _);
    apply list_eq; intros j; rewrite !list_lookup_fmap, list_lookup_alter;
    case_decide; try reflexivity; subst; by destruct (months !! j).
Qed.

Lemma fold_accumulate_monthKeys l months :
  monthKeys (fold_left accumulate l months) = monthKeys months.
Proof.
  revert months. induction l as [|t l IH]; intros months; simpl; [done|].
  by rewrite IH, accumulate_monthKeys.
Qed.

Lemma monthKeys_lookup months months' k b :
  monthKeys months = monthKeys months' →
  months !! k = Some b →
  ∃ b', months' !! k = Some b' ∧ month b' = month b ∧ year b' = year b.
Proof.
  unfold monthKeys. intros Hkeys Hb.
  assert (((λ m, (month m, year m)) <$> months') !! k
          = Some (month b, year b)) as Hk.
  { rewrite <- Hkeys, list_lookup_fmap, Hb. reflexivity. }
  rewrite list_lookup_fmap in Hk.
  destruct (months' !! k) as [b'|]; [|discriminate].
  injection Hk as Hm Hy. by exists b'.
Qed.

(** A bucket none of the transactions falls in goes through the loop as
    it is. *)
Lemma fold_accumulate_untouched l months k b :
  months !! k = Some b →
  (∀ t, t ∈ l → sameMonth (tx_date t) b = false) →
  fold_left accumulate l months !! k = Some b.
Proof.
  revert months. induction l as [|t l IH]; intros months Hb Hno; simpl;
    [exact Hb|].
  apply IH; [|intros t' Ht'; apply Hno; by right].
  unfold accumulate.
  destruct (findIndex _ months) as [i|] eqn:Hfind; [|exact Hb].
  apply findIndex_Some in Hfind as (x & Hx & Hsame).
  assert (i ≠ k) as Hik.
  { intros ->. rewrite Hb in Hx. injection Hx as <-.
    rewrite Hno in Hsame; [discriminate | by left]. }
  by destruct (String.eqb _ _); rewrite list_lookup_alter_ne.
Qed.

Lemma chartTransactions_user today userId db t :
  t ∈ chartTransactions today userId db → t ∈ userTransactions userId db.
Proof.
  unfold chartTransactions, userTransactions.
  rewrite merge_sort_Permutation, !elem_of_List_filter.
  intros [Ht Hp]. split; [exact Ht|]. by apply andb_true_iff in Hp as [? _].
Qed.

(** The six buckets before the loop: bucket [k] is month [k - 5]
    counted from the current one. *)
Lemma pushMonths_lookup today k b :
  pushMonths today 5 !! k = Some b →
  b = bucketAt today (5 - Z.of_nat k) ∧ (k < 6)%nat.
Proof.
  do 6 (destruct k as [|k]; [intros [= <-]; split; [reflexivity | lia]|]).
  discriminate.
Qed.

Lemma bucketAt_month today i :
  0 <= month (bucketAt today i) < 12
  ∧ 12 * year (bucketAt today i) + month (bucketAt today i)
    = 12 * getFullYear today + getMonth today - i.
Proof.
  simpl.
  pose proof (Z.mod_pos_bound (getMonth today - i) 12 eq_refl).
  pose proof (Z.div_mod (getMonth today - i) 12 ltac:(discriminate)).
  lia.
Qed.

(** C7: the chart has six buckets whatever the transactions are; bucket
    [k] is the calendar month [5 - k] months before the current one, so
    they run from the oldest to the current month across year ends; and
    a bucket that no transaction of the user falls in reports zero
    income and zero expenses. *)
Theorem monthlyChart_six_buckets today userId db :
  length (monthlyChart today userId db) = 6%nat
  ∧ (∀ k b, monthlyChart today userId db !! k = Some b →
       0 <= month b < 12
       ∧ 12 * year b + month b
         = 12 * getFullYear today + getMonth today - (5 - Z.of_nat k))
  ∧ (∀ k b b', monthlyChart today userId db !! k = Some b →
       monthlyChart today userId db !! S k = Some b' →
       12 * year b' + month b' = 12 * year b + month b + 1)
  ∧ (∀ k b, monthlyChart today userId db !! k = Some b →
       (∀ t, t ∈ userTransactions userId db →
             sameMonth (tx_date t) b = false) →
       income b = 0%Q ∧ expenses b = 0%Q).
Proof.
  pose proof (fold_accumulate_monthKeys (chartTransactions today userId db)
                (pushMonths today 5)) as Hkeys.
  fold (monthlyChart today userId db) in Hkeys.
  assert (∀ k b, monthlyChart today userId db !! k = Some b →
            ∃ b0, pushMonths today 5 !! k = Some b0
                  ∧ month b0 = month b ∧ year b0 = year b
                  ∧ b0 = bucketAt today (5 - Z.of_nat k)) as Hinit.
  { intros k b Hb.
    destruct (monthKeys_lookup _ _ _ _ Hkeys Hb) as (b0 & Hb0 & Hm & Hy).
    exists b0. repeat split; try done.
    exact (proj1 (pushMonths_lookup _ _ _ Hb0)). }
  assert (∀ k b, monthlyChart today userId db !! k = Some b →
            0 <= month b < 12
            ∧ 12 * year b + month b
              = 12 * getFullYear today + getMonth today - (5 - Z.of_nat k))
    as Hmonth.
  { intros k b Hb. destruct (Hinit k b Hb) as (b0 & _ & <- & <- & ->).
    apply bucketAt_month. }
  split; [|split; [exact Hmonth|split]].
  - apply (f_equal length) in Hkeys. unfold monthKeys in Hkeys.
    by rewrite !length_fmap in Hkeys.
  - intros k b b' Hb Hb'.
    apply Hmonth in Hb as [_ Hb]. apply Hmonth in Hb' as [_ Hb']. lia.
  - intros k b Hb Hno.
    destruct (Hinit k b Hb) as (b0 & Hb0 & Hm & Hy & Hb0eq).
    assert (monthlyChart today userId db !! k = Some b0) as Hb0'.
    { apply fold_accumulate_untouched; [exact Hb0|].
      intros t Ht. apply chartTransactions_user in Ht.
      unfold sameMonth. rewrite Hm, Hy. by apply Hno. }
    rewrite Hb in Hb0'. injection Hb0' as ->. by rewrite Hb0eq.
Qed.

Lemma monthlyChart_six_buckets_witness :
  length (monthlyChart sampleToday 7 sampleLedgerDb) = 6%nat
  ∧ 12 * year sampleOldestBucket + month sampleOldestBucket
    = 12 * getFullYear sampleToday + getMonth sampleToday - (5 - Z.of_nat 0)
  ∧ income sampleOldestBucket = 0%Q
  ∧ expenses sampleOldestBucket = 0%Q.
Proof.
  destruct (monthlyChart_six_buckets sampleToday 7 sampleLedgerDb)
    as (Hlen & Hmonth & _ & Hzero).
  split; [exact Hlen|].
  split; [apply (Hmonth 0%nat sampleOldestBucket); reflexivity|].
  apply (Hzero 0%nat sampleOldestBucket); [reflexivity|].
  apply Forall_forall. vm_compute. repeat constructor.
Defined.

(** ** Totals *)
















Lemma sampleLedgerDb_reachable : reachable sampleLedgerDb.
Proof.
  exact (reachable_step sampleClock 7
           (PostTransaction (sampleTransactionBody "income" 50 1)) _
           (reachable_step sampleClock 7
              (PostTransaction (sampleTransactionBody "expense" 40 0)) _
              (reachable_step sampleClock 7
                 (PostTransaction (sampleTransactionBody "income" 100 0)) _
                 activeGoalDb_reachable))).
Qed.


(** ** The examples of the specification *)

Example validateIntegerId_examples :
  validateIntegerId "7" = Some 7%N
  ∧ validateIntegerId "7a" = None
  ∧ validateIntegerId "-7" = None
  ∧ validateIntegerId EmptyString = None.
Proof. repeat split. Qed.

Example goal_200_50 :
  returned_goals (getGoal 7 "1" activeGoalDb) = [sampleReturnedGoal]
  ∧ progress sampleReturnedGoal = 25
  ∧ (∃ g, json (updateProgress 7 "1" (NNumber 200) activeGoalDb).2
          = MessageGoalBody goalCompletedMessage g
          ∧ status (gp_goal g) = "completed" ∧ progress g = 100).
Proof.
  split; [reflexivity|]. split; [reflexivity|].
  eexists. split; [reflexivity|]. split; reflexivity.
Qed.

Example summary_150_40_110 :
  getSummary 7 sampleLedgerDb = ok (SummaryBody 150 40 110 3).
Proof. reflexivity. Qed.

Example chart_across_the_year_end :
  (λ m, (month m, year m, label m, income m, expenses m))
    <$> monthlyChart sampleToday 7 sampleLedgerDb
  = [(8, 2023, "set", 0%Q, 0%Q); (9, 2023, "out", 0%Q, 0%Q);
     (10, 2023, "nov", 0%Q, 0%Q); (11, 2023, "dez", 0%Q, 0%Q);
     (0, 2024, "jan", 100%Q, 40%Q); (1, 2024, "fev", 50%Q, 0%Q)].
Proof. reflexivity. Qed.

(** * Further properties of the handlers *)

(** ** Ids, statuses and amounts of the stored rows *)

Lemma createGoal_cases clk userId b db :
  (∃ e, createGoal clk userId b db = (db, badRequest e))
  ∨ ∃ g, (createGoal clk userId b db).1
         = {| transactions := transactions db;
              nextTransactionId := nextTransactionId db;
              goals := <[nextGoalId db := g]> (goals db);
              nextGoalId := (nextGoalId db + 1)%N |}
         ∧ json (createGoal clk userId b db).2
           = MessageRawGoalBody "Meta criada com sucesso!" g
         ∧ statusCode (createGoal clk userId b db).2 = 201
         ∧ goal_id g = nextGoalId db
         ∧ goal_userId g = userId
         ∧ (status g = "completed" ∨ status g = "active").
Proof.
  unfold createGoal.
  repeat (case_match; simpl; try by (left; eexists)).
  all: right; eexists; repeat split; simpl; auto.
Qed.

Lemma createTransaction_cases userId b db :
  (∃ e, createTransaction userId b db = (db, badRequest e))
  ∨ ∃ t, (createTransaction userId b db).1
         = {| transactions := <[nextTransactionId db := t]> (transactions db);
              nextTransactionId := (nextTransactionId db + 1)%N;
              goals := goals db;
              nextGoalId := nextGoalId db |}
         ∧ json (createTransaction userId b db).2
           = MessageTransactionBody "Transação criada com sucesso!" t
         ∧ statusCode (createTransaction userId b db).2 = 201
         ∧ tx_id t = nextTransactionId db
         ∧ tx_userId t = userId
         ∧ (0 < tx_amount t)%Q.
Proof.
  unfold createTransaction.
  destruct (negb (str_truthy (tb_type b)) || negb (str_truthy (tb_category b))
            || negb (str_truthy (tb_description b))
            || negb (num_truthy (tb_amount b))
            || negb (date_truthy (tb_date b))) eqn:Hreq;
    [by left; eexists|].
  destruct (negb (str_is (tb_type b) "expense") && _); [by left; eexists|].
  destruct (isNaN (tb_amount b) || num_le0 (tb_amount b)) eqn:Hamt;
    [by left; eexists|].
  destruct (tb_date b); [by left; eexists..|].
  right. eexists. repeat split; simpl.
  rewrite !orb_false_iff, !negb_false_iff in Hreq.
  destruct Hreq as [[_ Htruthy] _]. by apply positive_target.
Qed.

Lemma goal_row_ok_counter db db' k g :
  (nextGoalId db <= nextGoalId db')%N →
  goal_row_ok db k g → goal_row_ok db' k g.
Proof. unfold goal_row_ok. intros ? (? & ? & ?). repeat split; [done|lia|done]. Qed.

Lemma transaction_row_ok_counter db db' k t :
  (nextTransactionId db <= nextTransactionId db')%N →
  transaction_row_ok db k t → transaction_row_ok db' k t.
Proof.
  unfold transaction_row_ok. intros ? (? & ? & ?). repeat split; [done|lia|done].
Qed.

Lemma createGoal_db_wf clk userId b db :
  db_wf db → db_wf (createGoal clk userId b db).1.
Proof.
  intros [Hg Ht].
  destruct (createGoal_cases clk userId b db)
    as [[e ->] | (g & -> & _ & _ & Hid & _ & Hst)]; [done|].
  split; simpl; [|exact Ht].
  apply map_Forall_insert_2.
  - repeat split; simpl; [done | lia |].
    destruct Hst as [-> | ->]; simpl; auto.
  - eapply map_Forall_impl; [exact Hg|].
    intros k g'. apply goal_row_ok_counter. simpl. lia.
Qed.

Lemma createTransaction_db_wf userId b db :
  db_wf db → db_wf (createTransaction userId b db).1.
Proof.
  intros [Hg Ht].
  destruct (createTransaction_cases userId b db)
    as [[e ->] | (t & -> & _ & _ & Hid & _ & Hamt)]; [done|].
  split; simpl; [exact Hg|].
  apply map_Forall_insert_2.
  - repeat split; simpl; [done | lia | done].
  - eapply map_Forall_impl; [exact Ht|].
    intros k t'. apply transaction_row_ok_counter. simpl. lia.
Qed.

Lemma update_status_valid existingGoal st finalT finalC today b :
  gb_status b = st →
  goalUpdate_error today b = None →
  In (status existingGoal) statuses →
  In (default (status existingGoal)
        (update_status existingGoal st finalT finalC)) statuses.
Proof.
  intros <- Herr Hold. unfold update_status.
  destruct (str_truthy (gb_status b)) eqn:Hst; simpl.
  - by eapply goalUpdate_error_status.
  - destruct (Qle_bool _ _); simpl; [auto|].
    destruct (_ && _); simpl; auto.
Qed.

Lemma updateGoal_db_wf clk userId id b db :
  db_wf db → db_wf (updateGoal clk userId id b db).1.
Proof.
  intros [Hg Ht]. unfold updateGoal.
  destruct (validateIntegerId id) as [goalId|]; [|done].
  destruct (goals db !! goalId) as [existingGoal|] eqn:Hget; [|done].
  destruct (negb (goal_userId existingGoal =? userId)%N); [done|].
  destruct (goalUpdate_error (now clk) b) eqn:Herr; [done|].
  split; [|exact Ht]. simpl.
  apply map_Forall_insert_2; [|exact Hg].
  eapply map_Forall_lookup_1 in Hg as (Hid & Hlt & Hst); [|exact Hget].
  repeat split; simpl; [done..|].
  by eapply update_status_valid.
Qed.

Lemma updateProgress_db_wf userId id amount db :
  db_wf db → db_wf (updateProgress userId id amount db).1.
Proof.
  intros [Hg Ht]. unfold updateProgress.
  destruct (validateIntegerId id) as [goalId|]; [|done].
  destruct (negb (num_truthy amount) || isNaN amount || num_lt0 amount);
    [done|].
  destruct (goals db !! goalId) as [existingGoal|] eqn:Hget; [|done].
  destruct (negb (goal_userId existingGoal =? userId)%N); [done|].
  split; [|exact Ht]. simpl.
  apply map_Forall_insert_2; [|exact Hg].
  eapply map_Forall_lookup_1 in Hg as (Hid & Hlt & Hst); [|exact Hget].
  repeat split; simpl; [done..|].
  destruct (Qle_bool _ _); simpl; auto.
Qed.

Lemma deleteGoal_db_wf userId id db :
  db_wf db → db_wf (deleteGoal userId id db).1.
Proof.
  intros [Hg Ht]. unfold deleteGoal.
  destruct (validateIntegerId id) as [goalId|]; [|done].
  destruct (goals db !! goalId); [|done].
  destruct (negb _); [done|].
  split; [|exact Ht]. by apply map_Forall_delete.
Qed.

Lemma updateTransaction_db_wf userId id b db :
  db_wf db → db_wf (updateTransaction userId id b db).1.
Proof.
  intros [Hg Ht]. unfold updateTransaction.
  destruct (validateIntegerId id) as [transactionId|]; [|done].
  destruct (transactions db !! transactionId) as [existing|] eqn:Hget; [|done].
  destruct (negb (tx_userId existing =? userId)%N); [done|].
  destruct (str_truthy (tb_type b) && _ && _); [done|].
  destruct (num_truthy (tb_amount b)
            && (isNaN (tb_amount b) || num_le0 (tb_amount b))) eqn:Hamt;
    [done|].
  eapply map_Forall_lookup_1 in Ht as Hrow; [|exact Hget].
  destruct Hrow as (Hid & Hlt & Hpos).
  assert (0 < default (tx_amount existing)
                (if num_truthy (tb_amount b)
                 then Some (parseFloat (tb_amount b)) else None))%Q as Hnew.
  { destruct (num_truthy (tb_amount b)) eqn:Htruthy; simpl; [|exact Hpos].
    by apply positive_target. }
  destruct (tb_date b); [|done|];
    (split; [exact Hg|]; simpl; apply map_Forall_insert_2; [|exact Ht];
     by repeat split).
Qed.

Lemma deleteTransaction_db_wf userId id db :
  db_wf db → db_wf (deleteTransaction userId id db).1.
Proof.
  intros [Hg Ht]. unfold deleteTransaction.
  destruct (validateIntegerId id) as [transactionId|]; [|done].
  destruct (transactions db !! transactionId); [|done].
  destruct (negb _); [done|].
  split; [exact Hg|]. by apply map_Forall_delete.
Qed.

Lemma handle_db_wf clk userId r db :
  db_wf db → db_wf (handle clk userId r db).1.
Proof.
  destruct r; simpl;
    auto using createGoal_db_wf, updateGoal_db_wf, deleteGoal_db_wf,
      updateProgress_db_wf, createTransaction_db_wf,
      updateTransaction_db_wf, deleteTransaction_db_wf.
Qed.

Lemma reachable_db_wf db : reachable db → db_wf db.
Proof.
  induction 1 as [|clk userId r db _ IH].
  - split; apply map_Forall_empty.
  - by apply handle_db_wf.
Qed.





(** ** Isolation between users *)

Lemma foreign_goals_untouched clk userId r db k g :
  db_wf db →
  goals db !! k = Some g → goal_userId g ≠ userId →
  goals (handle clk userId r db).1 !! k = Some g.
Proof.
  intros [Hwf _] Hget Hforeign.
  assert ((k < nextGoalId db)%N) as Hlt
    by (by eapply map_Forall_lookup_1 in Hwf as (_ & ? & _)).
  destruct r; simpl; try done.
  - destruct (createTransaction_cases userId b db)
      as [[e ->] | (t & -> & _)]; done.
  - unfold updateTransaction. by repeat (case_match; simpl; try done).
  - unfold deleteTransaction. by repeat (case_match; simpl; try done).
  - destruct (createGoal_cases clk userId b db)
      as [[e ->] | (g' & -> & _)]; [done|].
    simpl. rewrite lookup_insert_ne; [done|lia].
  - unfold updateGoal.
    destruct (validateIntegerId id) as [goalId|]; [|done].
    destruct (goals db !! goalId) as [existingGoal|] eqn:Hex; [|done].
    destruct (goal_userId existingGoal =? userId)%N eqn:Hown; [|done].
    simpl. destruct (goalUpdate_error _ _); [done|]. simpl.
    apply N.eqb_eq in Hown.
    rewrite lookup_insert_ne; [done|]. intros ->. congruence.
  - unfold deleteGoal.
    destruct (validateIntegerId id) as [goalId|]; [|done].
    destruct (goals db !! goalId) as [existingGoal|] eqn:Hex; [|done].
    destruct (goal_userId existingGoal =? userId)%N eqn:Hown; [|done].
    simpl. apply N.eqb_eq in Hown.
    rewrite lookup_delete_ne; [done|]. intros ->. congruence.
  - unfold updateProgress.
    destruct (validateIntegerId id) as [goalId|]; [|done].
    destruct (_ || _); [done|].
    destruct (goals db !! goalId) as [existingGoal|] eqn:Hex; [|done].
    destruct (goal_userId existingGoal =? userId)%N eqn:Hown; [|done].
    simpl. apply N.eqb_eq in Hown.
    rewrite lookup_insert_ne; [done|]. intros ->. congruence.
Qed.

Lemma foreign_transactions_untouched clk userId r db k t :
  db_wf db →
  transactions db !! k = Some t → tx_userId t ≠ userId →
  transactions (handle clk userId r db).1 !! k = Some t.
Proof.
  intros [_ Hwf] Hget Hforeign.
  assert ((k < nextTransactionId db)%N) as Hlt
    by (by eapply map_Forall_lookup_1 in Hwf as (_ & ? & _)).
  destruct r; simpl; try done.
  - destruct (createTransaction_cases userId b db)
      as [[e ->] | (t' & -> & _)]; [done|].
    simpl. rewrite lookup_insert_ne; [done|lia].
  - unfold updateTransaction.
    destruct (validateIntegerId id) as [transactionId|]; [|done].
    destruct (transactions db !! transactionId) as [existing|] eqn:Hex;
      [|done].
    destruct (tx_userId existing =? userId)%N eqn:Hown; [|done].
    simpl. destruct (_ && _ && _); [done|].
    destruct (_ && _); [done|].
    apply N.eqb_eq in Hown.
    destruct (tb_date b); [|done|]; simpl;
      (rewrite lookup_insert_ne; [done|]; intros ->; congruence).
  - unfold deleteTransaction.
    destruct (validateIntegerId id) as [transactionId|]; [|done].
    destruct (transactions db !! transactionId) as [existing|] eqn:Hex;
      [|done].
    destruct (tx_userId existing =? userId)%N eqn:Hown; [|done].
    simpl. apply N.eqb_eq in Hown.
    rewrite lookup_delete_ne; [done|]. intros ->. congruence.
  - destruct (createGoal_cases clk userId b db)
      as [[e ->] | (g' & -> & _)]; done.
  - unfold updateGoal. by repeat (case_match; simpl; try done).
  - unfold deleteGoal. by repeat (case_match; simpl; try done).
  - unfold updateProgress. by repeat (case_match; simpl; try done).
Qed.

(** No request of a user changes or removes a goal or a transaction of
    another user, on any store the API can bring about: the row is still
    there afterwards, field for field. *)
Theorem foreign_rows_untouched clk userId r db :
  reachable db →
  (∀ k g, goals db !! k = Some g → goal_userId g ≠ userId →
          goals (handle clk userId r db).1 !! k = Some g)
  ∧ (∀ k t, transactions db !! k = Some t → tx_userId t ≠ userId →
            transactions (handle clk userId r db).1 !! k = Some t).
Proof.
  intros Hreach. apply reachable_db_wf in Hreach.
  split; intros k x; [by apply foreign_goals_untouched
                     | by apply foreign_transactions_untouched].
Qed.

Lemma foreign_rows_untouched_witness :
  goals (handle sampleClock 8 (DeleteGoal "1") sampleLedgerDb).1 !! 1%N
  = Some (gp_goal sampleReturnedGoal)
  ∧ transactions (handle sampleClock 8 (PutTransaction "2"
                                          (onlyAmount (NNumber 5)))
                    sampleLedgerDb).1 !! 2%N
    = Some sampleExpense.
Proof.
  split.
  - apply (foreign_rows_untouched sampleClock 8 (DeleteGoal "1")
             sampleLedgerDb sampleLedgerDb_reachable);
      [reflexivity | discriminate].
  - apply (foreign_rows_untouched sampleClock 8
             (PutTransaction "2" (onlyAmount (NNumber 5)))
             sampleLedgerDb sampleLedgerDb_reachable);
      [reflexivity | discriminate].
Defined.

Lemma goal_update_keeps data g :
  goal_id (goal_update data g) = goal_id g
  ∧ goal_userId (goal_update data g) = goal_userId g
  ∧ createdAt (goal_update data g) = createdAt g.
Proof. done. Qed.

(** Whatever a request adds to the store or changes in it belongs to the
    caller: a goal or transaction found afterwards that was not there
    before, or not with these fields, has the caller as its owner. *)
Theorem changed_rows_are_own clk userId r db :
  (∀ k g, goals (handle clk userId r db).1 !! k = Some g →
          goals db !! k ≠ Some g → goal_userId g = userId)
  ∧ (∀ k t, transactions (handle clk userId r db).1 !! k = Some t →
            transactions db !! k ≠ Some t → tx_userId t = userId).
Proof.
  split.
  - intros k g. destruct r; simpl; try done.
    + destruct (createTransaction_cases userId b db)
        as [[e ->] | (t & -> & _)]; done.
    + unfold updateTransaction. by repeat (case_match; simpl; try done).
    + unfold deleteTransaction. by repeat (case_match; simpl; try done).
    + destruct (createGoal_cases clk userId b db)
        as [[e ->] | (g' & -> & _ & _ & _ & Hown & _)]; [done|].
      simpl. intros [[<- <-] | [_ Hold]]%lookup_insert_Some; done.
    + unfold updateGoal.
      destruct (validateIntegerId id) as [goalId|]; [|done].
      destruct (goals db !! goalId) as [existingGoal|] eqn:Hex; [|done].
      destruct (goal_userId existingGoal =? userId)%N eqn:Hown; [|done].
      simpl. destruct (goalUpdate_error _ _); [done|]. simpl.
      apply N.eqb_eq in Hown.
      intros [[<- <-] | [_ Hold]]%lookup_insert_Some; done.
    + unfold deleteGoal.
      destruct (validateIntegerId id) as [goalId|]; [|done].
      destruct (goals db !! goalId) as [existingGoal|] eqn:Hex; [|done].
      destruct (goal_userId existingGoal =? userId)%N eqn:Hown; [|done].
      simpl. by intros [_ Hold]%lookup_delete_Some.
    + unfold updateProgress.
      destruct (validateIntegerId id) as [goalId|]; [|done].
      destruct (_ || _); [done|].
      destruct (goals db !! goalId) as [existingGoal|] eqn:Hex; [|done].
      destruct (goal_userId existingGoal =? userId)%N eqn:Hown; [|done].
      simpl. apply N.eqb_eq in Hown.
      intros [[<- <-] | [_ Hold]]%lookup_insert_Some; done.
  - intros k t. destruct r; simpl; try done.
    + destruct (createTransaction_cases userId b db)
        as [[e ->] | (t' & -> & _ & _ & _ & Hown & _)]; [done|].
      simpl. intros [[<- <-] | [_ Hold]]%lookup_insert_Some; done.
    + unfold updateTransaction.
      destruct (validateIntegerId id) as [transactionId|]; [|done].
      destruct (transactions db !! transactionId) as [existing|] eqn:Hex;
        [|done].
      destruct (tx_userId existing =? userId)%N eqn:Hown; [|done].
      simpl. destruct (_ && _ && _); [done|].
      destruct (_ && _); [done|].
      apply N.eqb_eq in Hown.
      destruct (tb_date b); [|done|]; simpl;
        (intros [[<- <-] | [_ Hold]]%lookup_insert_Some; done).
    + unfold deleteTransaction.
      destruct (validateIntegerId id) as [transactionId|]; [|done].
      destruct (transactions db !! transactionId) as [existing|] eqn:Hex;
        [|done].
      destruct (tx_userId existing =? userId)%N eqn:Hown; [|done].
      simpl. by intros [_ Hold]%lookup_delete_Some.
    + destruct (createGoal_cases clk userId b db)
        as [[e ->] | (g' & -> & _)]; done.
    + unfold updateGoal. by repeat (case_match; simpl; try done).
    + unfold deleteGoal. by repeat (case_match; simpl; try done).
    + unfold updateProgress. by repeat (case_match; simpl; try done).
Qed.

Lemma changed_rows_are_own_witness :
  goal_userId
    {| goal_id := 1; goal_userId := 7; goal_name := "Viagem";
       targetAmount := 200; currentAmount := 120;
       deadline := {| getFullYear := 2024; getMonth := 6; getDate := 1 |};
       goal_category := None; goal_description := None;
       status := "active"; createdAt := 1000 |} = 7%N.
Proof.
  destruct (changed_rows_are_own sampleClock 7
              (PutGoalAmount "1" (NNumber 120)) activeGoalDb) as [Hgoals _].
  apply (Hgoals 1%N).
  - reflexivity.
  - discriminate.
Defined.



(** ** The order of dates *)

Lemma Date_ltb_spec (a b : Date) :
  Date_ltb a b = true ↔
  getFullYear a < getFullYear b
  ∨ (getFullYear a = getFullYear b
     ∧ (getMonth a < getMonth b
        ∨ (getMonth a = getMonth b ∧ (getDate a < getDate b)%positive))).
Proof.
  unfold Date_ltb.
  rewrite !orb_true_iff, !andb_true_iff, !orb_true_iff, !andb_true_iff,
    !Z.ltb_lt, !Z.eqb_eq, Pos.ltb_lt.
  tauto.
Qed.

Lemma Date_leb_spec (a b : Date) :
  Date_leb a b = true ↔ ¬ Date_ltb b a = true.
Proof. unfold Date_leb. rewrite negb_true_iff. by destruct (Date_ltb b a). Qed.

Lemma Date_leb_total (a b : Date) :
  Date_leb a b = true ∨ Date_leb b a = true.
Proof. rewrite !Date_leb_spec, !Date_ltb_spec. lia. Qed.

Lemma Date_leb_trans (a b c : Date) :
  Date_leb a b = true → Date_leb b c = true → Date_leb a c = true.
Proof. rewrite !Date_leb_spec, !Date_ltb_spec. lia. Qed.

#[global] Instance deadline_le_total : Total deadline_le.
Proof. intros a b. apply Date_leb_total. Qed.

#[global] Instance deadline_le_trans : Transitive deadline_le.
Proof. intros a b c. apply Date_leb_trans. Qed.

#[global] Instance tx_date_ge_total : Total tx_date_ge.
Proof. intros a b. apply Date_leb_total. Qed.

#[global] Instance tx_date_ge_trans : Transitive tx_date_ge.
Proof. intros a b c Hab Hbc. by eapply Date_leb_trans. Qed.

#[global] Instance createdAt_ge_total : Total createdAt_ge.
Proof. intros a b. unfold createdAt_ge. lia. Qed.

#[global] Instance createdAt_ge_trans : Transitive createdAt_ge.
Proof. intros a b c. unfold createdAt_ge. lia. Qed.

(** ** The lists *)

Lemma elem_of_rows_iff {A} (m : gmap N A) (x : A) :
  x ∈ rows m ↔ ∃ k, m !! k = Some x.
Proof.
  split; [apply elem_of_rows|].
  intros [k Hk]. unfold rows. apply list_elem_of_fmap.
  exists (k, x). split; [reflexivity|]. by apply elem_of_map_to_list.
Qed.

Lemma statuses_In (s : string) :
  existsb (String.eqb s) statuses = true ↔ In s statuses.
Proof.
  rewrite existsb_exists. split.
  - by intros (x & Hx & ->%String.eqb_eq).
  - intros Hin. exists s. split; [exact Hin | apply String.eqb_refl].
Qed.

Lemma status_filter_spec (statusFilter : jsstr) :
  str_truthy statusFilter && includes statuses statusFilter = true
  ↔ ∃ s, statusFilter = SString s ∧ In s statuses.
Proof.
  destruct statusFilter as [| |s]; simpl.
  - split; [discriminate | by intros (s & ? & _)].
  - split; [discriminate | by intros (s & ? & _)].
  - fold (existsb (String.eqb s) statuses). split.
    + intros [_ Hin]%andb_true_iff. exists s. split; [reflexivity|].
      by apply statuses_In.
    + intros (s' & [= <-] & Hin). apply andb_true_iff. split.
      * destruct Hin as [<- | [<- | [<- | []]]]; reflexivity.
      * by apply statuses_In.
Qed.

Lemma goal_filters_spec userId statusFilter g :
  goal_filters userId statusFilter g = true
  ↔ goal_userId g = userId
    ∧ (∀ s, statusFilter = SString s → In s statuses → status g = s).
Proof.
  unfold goal_filters. rewrite andb_true_iff, N.eqb_eq.
  destruct (str_truthy statusFilter && includes statuses statusFilter)
    eqn:Hf.
  - apply status_filter_spec in Hf as (s & -> & Hin). simpl.
    rewrite String.eqb_eq. split.
    + intros [Hown ->]. split; [exact Hown|]. by intros s' [= <-] _.
    + intros [Hown Hst]. split; [exact Hown|]. by apply Hst.
  - split.
    + intros [Hown _]. split; [exact Hown|]. intros s -> Hin.
      apply not_true_iff_false in Hf. destruct Hf.
      apply status_filter_spec. by exists s.
    + by intros [Hown _].
Qed.

(** GET /api/goals answers with exactly the goals of the caller, those
    of the status asked for when the query names one of the three
    statuses, in the order of their deadlines, the earliest first; a
    status that is none of the three is ignored. *)
Theorem listGoals_sorted_and_complete userId statusFilter db :
  ∃ found,
    listGoals userId statusFilter db = ok (GoalsBody (withProgress <$> found))
    ∧ StronglySorted deadline_le found
    ∧ (∀ g, g ∈ found ↔
         (∃ k, goals db !! k = Some g)
         ∧ goal_userId g = userId
         ∧ (∀ s, statusFilter = SString s → In s statuses → status g = s))
    ∧ (∀ s, statusFilter = SString s → ¬ In s statuses →
         listGoals userId statusFilter db = listGoals userId SUndefined db).
Proof.
  eexists. split; [reflexivity|].
  split; [apply StronglySorted_merge_sort; apply _|].
  split.
  - intros g.
    by rewrite merge_sort_Permutation, elem_of_List_filter,
      elem_of_rows_iff, goal_filters_spec.
  - intros s -> Hnot. unfold listGoals.
    rewrite (filter_ext (goal_filters userId (SString s))
               (goal_filters userId SUndefined)); [reflexivity|].
    intros g. unfold goal_filters.
    assert (str_truthy (SString s) && includes statuses (SString s) = false)
      as ->; [|reflexivity].
    apply not_true_iff_false. rewrite status_filter_spec.
    by intros (s' & [= <-] & Hin).
Qed.

Lemma listGoals_sorted_and_complete_witness :
  listGoals 7 (SString "done") activeGoalDb = listGoals 7 SUndefined activeGoalDb.
Proof.
  destruct (listGoals_sorted_and_complete 7 (SString "done") activeGoalDb)
    as (found & _ & _ & _ & Hignored).
  apply (Hignored "done"); [reflexivity|].
  simpl. intros [H | [H | [H | []]]]; discriminate H.
Defined.

(** GET /api/goals/latest/recent answers with at most two goals of the
    caller, the latest created first, and none of the caller's goals it
    leaves out was created after one it returns. *)
Theorem recentGoals_newest userId db :
  ∃ found,
    recentGoals userId db = ok (GoalsBody (withProgress <$> found))
    ∧ (length found <= 2)%nat
    ∧ StronglySorted createdAt_ge found
    ∧ (∀ g, g ∈ found →
         (∃ k, goals db !! k = Some g) ∧ goal_userId g = userId)
    ∧ (∀ k g, goals db !! k = Some g → goal_userId g = userId →
         g ∉ found →
         length found = 2%nat
         ∧ ∀ g', g' ∈ found → (createdAt g <= createdAt g')%N).
Proof.
  unfold recentGoals.
  set (sorted := merge_sort createdAt_ge
                   (List.filter (λ g, (goal_userId g =? userId)%N)
                      (rows (goals db)))).
  assert (StronglySorted createdAt_ge sorted) as Hsorted
    by (apply StronglySorted_merge_sort; apply _).
  assert (∀ g, g ∈ sorted ↔
            (∃ k, goals db !! k = Some g) ∧ goal_userId g = userId) as Hmem.
  { intros g. unfold sorted.
    by rewrite merge_sort_Permutation, elem_of_List_filter,
      elem_of_rows_iff, N.eqb_eq. }
  rewrite <- (take_drop 2 sorted) in Hsorted.
  exists (take 2 sorted). split; [reflexivity|].
  split; [rewrite length_take; lia|].
  split; [by eapply StronglySorted_app_1_l|].
  split.
  - intros g Hg. apply Hmem. by eapply subseteq_take.
  - intros k g Hget Hown Hnot.
    assert (g ∈ drop 2 sorted) as Hdrop.
    { assert (g ∈ sorted) as Hg by (apply Hmem; eauto).
      rewrite <- (take_drop 2 sorted) in Hg.
      by apply elem_of_app in Hg as [Hg | Hg]. }
    split.
    + rewrite length_take.
      destruct (decide (2 <= length sorted)%nat) as [|Hshort]; [lia|].
      rewrite drop_ge in Hdrop by lia. by apply elem_of_nil in Hdrop.
    + intros g' Hg'.
      by apply (StronglySorted_app_1_elem_of _ _ _ g' g Hsorted).
Qed.



Lemma recentGoals_newest_witness :
  (createdAt sampleOldestGoal
   <= createdAt {| goal_id := 3; goal_userId := 7; goal_name := "Viagem";
                   targetAmount := 300; currentAmount := 0;
                   deadline := {| getFullYear := 2024; getMonth := 6;
                                  getDate := 1 |};
                   goal_category := None; goal_description := None;
                   status := "active"; createdAt := 30 |})%N.
Proof.
  destruct (recentGoals_newest 7 threeGoalsDb)
    as (found & Hresp & _ & _ & _ & Hleft).
  injection Hresp as Hfound.
  assert (found = gp_goal <$> (withProgress <$> found)) as Hmap.
  { rewrite <- list_fmap_compose. symmetry. apply list_fmap_id. }
  rewrite <- Hfound in Hmap. vm_compute in Hmap. subst found.
  apply (Hleft 1%N sampleOldestGoal); [reflexivity | reflexivity | |].
  - intros Hin. apply list_elem_of_In in Hin.
    destruct Hin as [H | [H | []]]; discriminate H.
  - apply list_elem_of_here.
Defined.


(** ** The buckets of the chart, one by one *)











(** ** Failures, creation and deletion *)

(** A request that is not answered with 200 or 201 leaves the store as
    it was: no check fails after a write. *)
Theorem failed_request_changes_nothing clk userId r db :
  statusCode (handle clk userId r db).2 ≠ 200 →
  statusCode (handle clk userId r db).2 ≠ 201 →
  (handle clk userId r db).1 = db.
Proof.
  destruct r; simpl; try done.
  - destruct (createTransaction_cases userId b db)
      as [[e ->] | (t & _ & _ & -> & _)]; done.
  - unfold updateTransaction. by repeat (case_match; simpl; try done).
  - unfold deleteTransaction. by repeat (case_match; simpl; try done).
  - destruct (createGoal_cases clk userId b db)
      as [[e ->] | (g & _ & _ & -> & _)]; done.
  - unfold updateGoal. by repeat (case_match; simpl; try done).
  - unfold deleteGoal. by repeat (case_match; simpl; try done).
  - unfold updateProgress. by repeat (case_match; simpl; try done).
Qed.

Lemma failed_request_changes_nothing_witness :
  (handle sampleClock 7 (PutGoal "1" (onlyTarget (NNumber (-5))))
     activeGoalDb).1 = activeGoalDb.
Proof.
  apply (failed_request_changes_nothing sampleClock 7
           (PutGoal "1" (onlyTarget (NNumber (-5)))) activeGoalDb);
    discriminate.
Defined.

(** A goal that POST /api/goals accepts is stored under the next id for
    the caller with the amounts given (0 when no current amount is
    given), completed when the current amount reaches the target and
    active otherwise, with a deadline that is not before today; and GET
    /api/goals/:id with that id hands it back to the caller, progress
    attached. *)
Theorem createGoal_then_get clk userId b db id :
  statusCode (createGoal clk userId b db).2 = 201 →
  validateIntegerId id = Some (nextGoalId db) →
  ∃ g,
    json (createGoal clk userId b db).2
    = MessageRawGoalBody "Meta criada com sucesso!" g
    ∧ goals (createGoal clk userId b db).1 !! nextGoalId db = Some g
    ∧ getGoal userId id (createGoal clk userId b db).1
      = ok (GoalBody (withProgress g))
    ∧ goal_userId g = userId
    ∧ targetAmount g = parseFloat (gb_targetAmount b)
    ∧ currentAmount g
      = (if num_truthy (gb_currentAmount b)
         then parseFloat (gb_currentAmount b) else 0%Q)
    ∧ ((targetAmount g <= currentAmount g)%Q → status g = "completed")
    ∧ ((currentAmount g < targetAmount g)%Q → status g = "active")
    ∧ isDateInPast (now clk) (deadline g) = false.
Proof.
  unfold createGoal, getGoal. intros Hcode ->.
  destruct (negb (str_truthy (gb_name b)) || _ || _); [done|].
  destruct (isNaN _ || _); [done|].
  destruct (num_defined _ && _); [done|].
  destruct (gb_deadline b) as [| |parsedDeadline]; [done..|].
  destruct (isDateInPast (now clk) parsedDeadline) eqn:Hpast; [done|].
  simpl. rewrite lookup_insert_eq. simpl. rewrite N.eqb_refl.
  eexists. repeat split; simpl; try done.
  - intros Hle. apply Qle_bool_iff in Hle. by rewrite Hle.
  - intros Hlt. apply Qle_bool_lt in Hlt. by rewrite Hlt.
Qed.

Lemma createGoal_then_get_witness :
  ∃ g,
    json (createGoal sampleClock 7 (sampleGoalBody 200 50) emptyDb).2
    = MessageRawGoalBody "Meta criada com sucesso!" g
    ∧ goals (createGoal sampleClock 7 (sampleGoalBody 200 50) emptyDb).1
      !! nextGoalId emptyDb = Some g
    ∧ getGoal 7 "1" (createGoal sampleClock 7 (sampleGoalBody 200 50) emptyDb).1
      = ok (GoalBody (withProgress g))
    ∧ goal_userId g = 7%N
    ∧ targetAmount g = parseFloat (gb_targetAmount (sampleGoalBody 200 50))
    ∧ currentAmount g
      = (if num_truthy (gb_currentAmount (sampleGoalBody 200 50))
         then parseFloat (gb_currentAmount (sampleGoalBody 200 50)) else 0%Q)
    ∧ ((targetAmount g <= currentAmount g)%Q → status g = "completed")
    ∧ ((currentAmount g < targetAmount g)%Q → status g = "active")
    ∧ isDateInPast (now sampleClock) (deadline g) = false.
Proof.
  apply (createGoal_then_get sampleClock 7 (sampleGoalBody 200 50) emptyDb "1");
    reflexivity.
Defined.



(** After DELETE /api/goals/:id has answered 200 the goal is gone for
    everyone: reading, updating or deleting it again is answered 404,
    the progress route never succeeds on it, and no other goal and no
    transaction has changed. *)
Theorem deleteGoal_then_gone clk userId id db k :
  statusCode (deleteGoal userId id db).2 = 200 →
  validateIntegerId id = Some k →
  goals (deleteGoal userId id db).1 !! k = None
  ∧ (∀ j, j ≠ k → goals (deleteGoal userId id db).1 !! j = goals db !! j)
  ∧ transactions (deleteGoal userId id db).1 = transactions db
  ∧ ∀ anyUser b amount,
      getGoal anyUser id (deleteGoal userId id db).1
      = notFound "Meta não encontrada"
      ∧ (updateGoal clk anyUser id b (deleteGoal userId id db).1).2
        = notFound "Meta não encontrada"
      ∧ (deleteGoal anyUser id (deleteGoal userId id db).1).2
        = notFound "Meta não encontrada"
      ∧ statusCode (updateProgress anyUser id amount
                      (deleteGoal userId id db).1).2 ≠ 200.
Proof.
  intros Hcode Hid. revert Hcode.
  unfold getGoal, updateGoal, updateProgress.
  unfold deleteGoal at 1 2 3 4 5 6 8. unfold deleteGoal. rewrite Hid.
  destruct (goals db !! k) as [g|] eqn:Hget; [|done].
  destruct (negb (goal_userId g =? userId)%N); [done|].
  simpl. intros _. rewrite lookup_delete_eq.
  repeat split; try done.
  - intros j Hj. by apply lookup_delete_ne.
  - by destruct (_ || _).
Qed.

Lemma deleteGoal_then_gone_witness :
  getGoal 7 "1" (deleteGoal 7 "1" activeGoalDb).1
  = notFound "Meta não encontrada".
Proof.
  destruct (deleteGoal_then_gone sampleClock 7 "1" activeGoalDb 1%N)
    as (_ & _ & _ & Hgone); [reflexivity..|].
  apply (Hgone 7%N (onlyTarget NUndefined) NUndefined).
Defined.

(** After DELETE /api/transactions/:id has answered 200 the transaction
    is gone for everyone: reading, updating or deleting it again is
    answered 404, and no other transaction and no goal has changed. *)
Theorem deleteTransaction_then_gone userId id db k :
  statusCode (deleteTransaction userId id db).2 = 200 →
  validateIntegerId id = Some k →
  transactions (deleteTransaction userId id db).1 !! k = None
  ∧ (∀ j, j ≠ k →
       transactions (deleteTransaction userId id db).1 !! j
       = transactions db !! j)
  ∧ goals (deleteTransaction userId id db).1 = goals db
  ∧ ∀ anyUser b,
      getTransaction anyUser id (deleteTransaction userId id db).1
      = notFound "Transação não encontrada"
      ∧ (updateTransaction anyUser id b (deleteTransaction userId id db).1).2
        = notFound "Transação não encontrada"
      ∧ (deleteTransaction anyUser id (deleteTransaction userId id db).1).2
        = notFound "Transação não encontrada".
Proof.
  intros Hcode Hid. revert Hcode.
  unfold getTransaction, updateTransaction.
  unfold deleteTransaction at 1 2 3 4 5 6 8. unfold deleteTransaction.
  rewrite Hid.
  destruct (transactions db !! k) as [t|] eqn:Hget; [|done].
  destruct (negb (tx_userId t =? userId)%N); [done|].
  simpl. intros _. rewrite lookup_delete_eq.
  repeat split; try done.
  intros j Hj. by apply lookup_delete_ne.
Qed.

Lemma deleteTransaction_then_gone_witness :
  getTransaction 7 "2" (deleteTransaction 7 "2" sampleLedgerDb).1
  = notFound "Transação não encontrada".
Proof.
  destruct (deleteTransaction_then_gone 7 "2" sampleLedgerDb 2%N)
    as (_ & _ & _ & Hgone); [reflexivity..|].
  apply (Hgone 7%N (onlyAmount NUndefined)).
Defined.

(** ** Repeating an update *)

Lemma goal_update_twice existingGoal b :
  let g := goal_update (goalUpdateData_of existingGoal b) existingGoal in
  goal_update (goalUpdateData_of g b) g = g.
Proof.
  destruct existingGoal as [gid uid nm tgt cur dl cat desc st ca].
  unfold goal_update, goalUpdateData_of; simpl.
  f_equal.
  - by destruct (str_truthy (gb_name b)).
  - by destruct (num_truthy (gb_targetAmount b)).
  - by destruct (num_defined (gb_currentAmount b)).
  - by destruct (date_value (gb_deadline b)).
  - by destruct (str_defined (gb_category b)).
  - by destruct (str_defined (gb_description b)).
  - unfold update_status.
    destruct (num_truthy (gb_targetAmount b)),
      (num_defined (gb_currentAmount b)); simpl;
      (destruct (negb (str_truthy (gb_status b))); [|done]);
      (destruct (Qle_bool _ _); [done|]);
      (destruct (String.eqb st "completed" && _) eqn:Hre; simpl; [done|]);
      by rewrite Hre.
Qed.

(** PUT /api/goals/:id is idempotent: sending the same update again, at
    the same time, gives the same answer and leaves the store as the
    first one left it, also when the first one moved the status. *)
Theorem updateGoal_idempotent clk userId id b db :
  updateGoal clk userId id b (updateGoal clk userId id b db).1
  = updateGoal clk userId id b db.
Proof.
  unfold updateGoal.
  destruct (validateIntegerId id) as [goalId|]; [|done].
  destruct (goals db !! goalId) as [existingGoal|] eqn:Hget;
    [|simpl; rewrite ?Hget; done].
  destruct (negb (goal_userId existingGoal =? userId)%N) eqn:Hown;
    [simpl; rewrite ?Hget; simpl; rewrite ?Hown; done|].
  destruct (goalUpdate_error (now clk) b) eqn:Herr;
    [simpl; rewrite ?Hget; simpl; rewrite ?Hown; simpl; rewrite ?Herr; done|].
  simpl. rewrite lookup_insert_eq. simpl.
  rewrite ?Hown, ?Herr. simpl. rewrite ?Herr.
  rewrite (goal_update_twice existingGoal b).
  unfold with_goals. simpl. by rewrite insert_insert_eq.
Qed.



(** ** Ids in URLs *)

Lemma parseInt_from_acc (d : Decimal.uint) (p : positive) :
  parseInt_from (Npos p) (DecimalString.NilEmpty.string_of_uint d)
  = Npos (Pos.of_uint_acc d p).
Proof.
  revert p. induction d; intros p; simpl; [reflexivity|..];
    rewrite <- IHd; f_equal;
    match goal with
    | |- context [N.of_nat (nat_of_ascii ?c)] =>
      let v := eval vm_compute in (N.of_nat (nat_of_ascii c)) in
      change (N.of_nat (nat_of_ascii c)) with v
    end; lia.
Qed.

Lemma parseInt_from_uint (d : Decimal.uint) :
  parseInt_from 0 (DecimalString.NilEmpty.string_of_uint d) = N.of_uint d.
Proof.
  induction d; simpl; try reflexivity; try exact IHd;
    apply (parseInt_from_acc d).
Qed.

Lemma all_digits_uint (d : Decimal.uint) :
  all_digits (DecimalString.NilEmpty.string_of_uint d) = true.
Proof. induction d; simpl; auto. Qed.

Lemma to_uint_nonnil (n : N) : N.to_uint n ≠ Decimal.Nil.
Proof.
  destruct n as [|p]; [discriminate|].
  apply DecimalPos.Unsigned.to_uint_nonnil.
Qed.

(** The id a page writes into a URL is the id the server reads back:
    [validateIntegerId] accepts the decimal form of every id and gives
    the id itself. *)
Theorem validateIntegerId_idToString (id : N) :
  validateIntegerId (idToString id) = Some id.
Proof.
  unfold validateIntegerId, idToString.
  pose proof (to_uint_nonnil id) as Hnonnil.
  pose proof (all_digits_uint (N.to_uint id)) as Hdigits.
  pose proof (parseInt_from_uint (N.to_uint id)) as Hvalue.
  rewrite DecimalN.Unsigned.of_to in Hvalue.
  destruct (DecimalString.NilEmpty.string_of_uint (N.to_uint id)) eqn:Hs.
  - destruct (N.to_uint id); try discriminate Hs. done.
  - by rewrite Hdigits, Hvalue.
Qed.

Lemma all_digits_app (s1 s2 : string) :
  all_digits (s1 +:+ s2) = all_digits s1 && all_digits s2.
Proof.
  induction s1 as [|c s1 IH]; simpl; [reflexivity|].
  by rewrite IH, andb_assoc.
Qed.

(** [validateIntegerId] rejects every string that holds a character
    other than a digit, wherever it stands: a sign, a space, a dot, a
    letter after the digits. *)
Theorem validateIntegerId_rejects_nondigit (s1 s2 : string) (c : ascii) :
  is_digit c = false →
  validateIntegerId (s1 +:+ String c s2) = None.
Proof.
  intros Hc. unfold validateIntegerId.
  assert (all_digits (s1 +:+ String c s2) = false) as Hall.
  { rewrite all_digits_app. simpl. rewrite Hc. apply andb_false_r. }
  rewrite Hall. by destruct (s1 +:+ String c s2).
Qed.

Lemma validateIntegerId_rejects_nondigit_witness :
  validateIntegerId ("12" +:+ String "a" EmptyString) = None.
Proof.
  apply (validateIntegerId_rejects_nondigit "12" EmptyString "a").
  reflexivity.
Defined.




(** ** Escaping for HTML *)

Lemma occurs_app (p : ascii → bool) (s1 s2 : string) :
  occurs p (s1 +:+ s2) = occurs p s1 || occurs p s2.
Proof.
  induction s1 as [|c s1 IH]; simpl; [reflexivity|].
  by rewrite IH, orb_assoc.
Qed.

Lemma escapeChar_cases (c : ascii) :
  (isHtmlSpecial c = false ∧ escapeChar c = String c EmptyString)
  ∨ (c = "&"%char ∧ escapeChar c = "&amp;")
  ∨ (c = "<"%char ∧ escapeChar c = "&lt;")
  ∨ (c = ">"%char ∧ escapeChar c = "&gt;")
  ∨ (c = ascii_of_nat 34 ∧ escapeChar c = "&quot;")
  ∨ (c = "'"%char ∧ escapeChar c = "&#039;").
Proof.
  unfold escapeChar, isHtmlSpecial.
  destruct (Ascii.eqb_spec c "&") as [->|_]; [tauto|].
  destruct (Ascii.eqb_spec c "<") as [->|_]; [tauto|].
  destruct (Ascii.eqb_spec c ">") as [->|_]; [tauto|].
  destruct (Ascii.eqb_spec c (ascii_of_nat 34)) as [->|_]; [tauto|].
  destruct (Ascii.eqb_spec c "'") as [->|_]; [tauto|].
  by left.
Qed.

(** Escaped text holds no angle bracket and no quote: set as the content
    of an element or of a quoted attribute it cannot open a tag or close
    the attribute. *)
Theorem escapeHtml_no_markup (text : string) :
  occurs isMarkup (escapeHtml text) = false.
Proof.
  induction text as [|c text IH]; simpl; [reflexivity|].
  rewrite occurs_app, IH, orb_false_r.
  destruct (escapeChar_cases c)
    as [[Hc ->] | [[-> ->] | [[-> ->] | [[-> ->] | [[-> ->] | [-> ->]]]]]];
    try reflexivity.
  simpl. rewrite orb_false_r.
  unfold isHtmlSpecial in Hc. unfold isMarkup.
  rewrite !orb_false_iff in *. tauto.
Qed.

(** Text without any of the five characters is left as it is. *)
Theorem escapeHtml_plain_text (text : string) :
  occurs isHtmlSpecial text = false → escapeHtml text = text.
Proof.
  induction text as [|c text IH]; simpl; [reflexivity|].
  intros [Hc Hrest]%orb_false_iff. rewrite (IH Hrest).
  destruct (escapeChar_cases c)
    as [[_ ->] | [[-> _] | [[-> _] | [[-> _] | [[-> _] | [-> _]]]]]];
    done.
Qed.

Lemma escapeHtml_plain_text_witness :
  escapeHtml "Viagem 2025" = "Viagem 2025".
Proof. apply (escapeHtml_plain_text "Viagem 2025"). reflexivity. Defined.

(** Escaping loses nothing: two texts with the same escaped form are the
    same text. *)
Theorem escapeHtml_injective (a b : string) :
  escapeHtml a = escapeHtml b → a = b.
Proof.
  revert b. induction a as [|c a IH]; intros [|d b]; simpl.
  - done.
  - destruct (escapeChar_cases d)
      as [[_ ->] | [[_ ->] | [[_ ->] | [[_ ->] | [[_ ->] | [_ ->]]]]]];
      discriminate.
  - destruct (escapeChar_cases c)
      as [[_ ->] | [[_ ->] | [[_ ->] | [[_ ->] | [[_ ->] | [_ ->]]]]]];
      discriminate.
  - destruct (escapeChar_cases c)
      as [[Hc ->] | [[-> ->] | [[-> ->] | [[-> ->] | [[-> ->] | [-> ->]]]]]];
      destruct (escapeChar_cases d)
        as [[Hd ->] | [[-> ->] | [[-> ->] | [[-> ->] | [[-> ->] | [-> ->]]]]]];
      simpl; intros Heq; try discriminate Heq;
      try (injection Heq as Heq; f_equal; by apply IH);
      try (injection Heq as -> Heq; f_equal; by apply IH);
      try (simpl in Heq; injection Heq as Hhead _; subst;
           first [discriminate Hc | discriminate Hd]).
Qed.

Lemma escapeHtml_injective_witness :
  "a<b" = "a<b".
Proof. apply (escapeHtml_injective "a<b" "a<b"). reflexivity. Defined.

(** ** Totals are never negative *)

Lemma accumulate_nonneg months t :
  (0 <= tx_amount t)%Q →
  Forall bucket_nonneg months → Forall bucket_nonneg (accumulate months t).
Proof.
  intros Ht Hm. unfold accumulate.
  destruct (findIndex _ months) as [i|]; [|exact Hm].
  destruct (String.eqb _ _); apply Forall_alter; try done;
    intros x _ [Hi He]; split; simpl; try done.
  - rewrite <- (Qplus_0_r 0). by apply Qplus_le_compat.
  - rewrite <- (Qplus_0_r 0). by apply Qplus_le_compat.
Qed.

Lemma fold_accumulate_nonneg l months :
  (∀ t, t ∈ l → (0 <= tx_amount t)%Q) →
  Forall bucket_nonneg months →
  Forall bucket_nonneg (fold_left accumulate l months).
Proof.
  revert months. induction l as [|t l IH]; intros months Hl Hm; [done|].
  simpl. apply IH; [intros t' Ht'; apply Hl; by right|].
  apply accumulate_nonneg; [apply Hl; by left | exact Hm].
Qed.

Lemma userTransactions_positive userId db t :
  db_wf db → t ∈ userTransactions userId db → (0 < tx_amount t)%Q.
Proof.
  intros [_ Hwf] Ht. unfold userTransactions in Ht.
  apply elem_of_List_filter in Ht as [Ht _].
  apply elem_of_rows in Ht as [k Hk].
  by eapply map_Forall_lookup_1 in Hwf as (_ & _ & ?).
Qed.

Lemma fold_left_amounts_nonneg (l : list transaction) (a : Q) :
  (0 <= a)%Q → (∀ t, t ∈ l → (0 <= tx_amount t)%Q) →
  (0 <= fold_left (λ sum t, sum + tx_amount t) l a)%Q.
Proof.
  revert a. induction l as [|t l IH]; intros a Ha Hl; [done|].
  simpl. apply IH; [|intros t' Ht'; apply Hl; by right].
  rewrite <- (Qplus_0_r 0). apply Qplus_le_compat; [done|]. apply Hl. by left.
Qed.

(** On every store the API can bring about, no bucket of the chart has a
    negative income or a negative expense total, and neither has the
    summary. *)
Theorem totals_never_negative today userId db :
  reachable db →
  Forall bucket_nonneg (monthlyChart today userId db)
  ∧ (0 <= st_income (summaryStats userId db))%Q
  ∧ (0 <= st_expenses (summaryStats userId db))%Q.
Proof.
  intros Hreach. apply reachable_db_wf in Hreach.
  split; [|split].
  - apply fold_accumulate_nonneg.
    + intros t Ht. apply chartTransactions_user in Ht.
      apply Qlt_le_weak. by eapply userTransactions_positive.
    + simpl. repeat constructor; simpl; discriminate.
  - simpl. unfold total_of. apply fold_left_amounts_nonneg; [discriminate|].
    intros t [Ht _]%elem_of_List_filter.
    apply Qlt_le_weak. by eapply userTransactions_positive.
  - simpl. unfold total_of. apply fold_left_amounts_nonneg; [discriminate|].
    intros t [Ht _]%elem_of_List_filter.
    apply Qlt_le_weak. by eapply userTransactions_positive.
Qed.

Lemma totals_never_negative_witness :
  Forall bucket_nonneg (monthlyChart sampleToday 7 sampleLedgerDb)
  ∧ (0 <= st_income (summaryStats 7 sampleLedgerDb))%Q
  ∧ (0 <= st_expenses (summaryStats 7 sampleLedgerDb))%Q.
Proof.
  apply (totals_never_negative sampleToday 7 sampleLedgerDb).
  exact sampleLedgerDb_reachable.
Defined.

(** ** The drawing of the chart *)









(** ** Accounts *)

Lemma findUserByEmail_None email acc :
  findUserByEmail email acc = None ↔
  ∀ k u, users acc !! k = Some u → user_email u ≠ email.
Proof.
  unfold findUserByEmail. rewrite head_None. split.
  - intros Hnil k u Hu Hemail.
    assert (u ∈ List.filter (λ u, String.eqb (user_email u) email)
                  (rows (users acc))) as Hin.
    { apply elem_of_List_filter. split.
      - apply elem_of_rows_iff. by exists k.
      - by apply String.eqb_eq. }
    rewrite Hnil in Hin. by apply elem_of_nil in Hin.
  - intros Hno.
    destruct (List.filter _ _) as [|u l] eqn:Hf; [done|].
    assert (u ∈ List.filter (λ u, String.eqb (user_email u) email)
                  (rows (users acc))) as Hin by (rewrite Hf; by left).
    apply elem_of_List_filter in Hin as [[k Hk]%elem_of_rows Heq].
    apply String.eqb_eq in Heq. by destruct (Hno k u Hk).
Qed.

Lemma findUserByEmail_Some email acc u :
  findUserByEmail email acc = Some u →
  (∃ k, users acc !! k = Some u) ∧ user_email u = email.
Proof.
  unfold findUserByEmail. intros Hhead.
  assert (u ∈ List.filter (λ u, String.eqb (user_email u) email)
                (rows (users acc))) as Hin.
  { destruct (List.filter _ _) as [|u' l]; [done|].
    injection Hhead as ->. by left. }
  apply elem_of_List_filter in Hin as [Hk Heq].
  split; [by apply elem_of_rows|by apply String.eqb_eq].
Qed.

Lemma findUserByEmail_stored acc k u :
  accounts_ok acc →
  users acc !! k = Some u →
  findUserByEmail (user_email u) acc = Some u.
Proof.
  intros (_ & Hids & Huniq) Hu.
  destruct (findUserByEmail (user_email u) acc) as [u'|] eqn:Hfind.
  - apply findUserByEmail_Some in Hfind as [[k' Hk'] Hemail].
    assert (k' = k) as -> by (by eapply Huniq).
    congruence.
  - rewrite findUserByEmail_None in Hfind. by destruct (Hfind k u Hu).
Qed.

Lemma register_cases bc salt clk b acc sess :
  (∃ e, register bc salt clk b acc sess
        = (acc, sess, {| auth_status := 400; auth_json := AuthError e |}))
  ∨ (register_error b = None
     ∧ findUserByEmail (str_value (rb_email b)) acc = None
     ∧ let u := {| user_id := nextUserId acc;
                   user_email := str_value (rb_email b);
                   user_name := str_value (rb_name b);
                   user_password :=
                     bcrypt_hash bc (str_value (rb_password b)) salt;
                   user_profilePhoto := str_or_null (rb_profilePhoto b);
                   user_createdAt := timestamp clk |} in
       register bc salt clk b acc sess
       = ({| users := <[nextUserId acc := u]> (users acc);
             nextUserId := (nextUserId acc + 1)%N |},
          {| session_userId := Some (nextUserId acc);
             session_userName := Some (str_value (rb_name b)) |},
          {| auth_status := 200;
             auth_json := AuthUser "Usuário registrado com sucesso!"
                            (nextUserId acc) (str_value (rb_email b))
                            (str_value (rb_name b)) |})).
Proof.
  unfold register.
  destruct (register_error b); [left; by eexists|].
  destruct (findUserByEmail _ acc); [left; by eexists|].
  by right.
Qed.

Lemma register_error_password b :
  register_error b = None →
  (6 <= String.length (str_value (rb_password b)))%nat.
Proof.
  unfold register_error.
  destruct (negb _ || _ || _); [discriminate|].
  destruct (Nat.ltb_spec (String.length (str_value (rb_password b))) 6);
    [discriminate|done].
Qed.

Lemma register_accounts_ok bc salt clk b acc sess :
  accounts_ok acc → accounts_ok (register bc salt clk b acc sess).1.1.
Proof.
  intros (Hpos & Hids & Huniq).
  destruct (register_cases bc salt clk b acc sess)
    as [[e ->] | (_ & Hnone & ->)]; [done|].
  rewrite findUserByEmail_None in Hnone.
  split; [simpl; lia|]. split; simpl.
  - apply map_Forall_insert_2; [repeat split; simpl; [done|lia]|].
    eapply map_Forall_impl; [exact Hids|].
    simpl. intros k u (? & ? & ?). repeat split; [done..|lia].
  - intros k1 k2 u1 u2
      [[<- <-] | [Hne1 Hu1]]%lookup_insert_Some
      [[<- <-] | [Hne2 Hu2]]%lookup_insert_Some Hemail; simpl in *.
    + done.
    + by destruct (Hnone k2 u2 Hu2).
    + by destruct (Hnone k1 u1 Hu1).
    + by eapply Huniq.
Qed.

Lemma accounts_reachable_ok bc acc :
  accounts_reachable bc acc → accounts_ok acc.
Proof.
  induction 1 as [|salt clk b acc sess _ IH].
  - split; [done|]. split; [apply map_Forall_empty|].
    intros k1 k2 u1 u2 Hu1. simpl in Hu1. by rewrite lookup_empty in Hu1.
  - by apply register_accounts_ok.
Qed.

Lemma register_passwords_hashed bc salt clk b acc sess :
  map_Forall (λ _ u, password_hashed bc u) (users acc) →
  map_Forall (λ _ u, password_hashed bc u)
    (users (register bc salt clk b acc sess).1.1).
Proof.
  intros Hh.
  destruct (register_cases bc salt clk b acc sess)
    as [[e ->] | (Herr & _ & ->)]; [done|].
  simpl. apply map_Forall_insert_2; [|exact Hh].
  eexists _, _. split; [reflexivity|]. by apply register_error_password.
Qed.

Lemma accounts_reachable_hashed bc acc :
  accounts_reachable bc acc →
  map_Forall (λ _ u, password_hashed bc u) (users acc).
Proof.
  induction 1 as [|salt clk b acc sess _ IH].
  - apply map_Forall_empty.
  - by apply register_passwords_hashed.
Qed.

(** Among the accounts registration can bring about, every user is
    filed under its own id, which is not zero; no two users share an
    e-mail address; and what is stored as a password is the bcrypt hash
    of a password of six characters or more. *)
Theorem registered_accounts_wellformed bc acc k u :
  accounts_reachable bc acc →
  users acc !! k = Some u →
  user_id u = k ∧ (0 < k)%N ∧ (k < nextUserId acc)%N
  ∧ (∀ k' u', users acc !! k' = Some u' →
              user_email u' = user_email u → k' = k)
  ∧ password_hashed bc u.
Proof.
  intros Hreach Hu.
  pose proof (accounts_reachable_ok bc acc Hreach) as (_ & Hids & Huniq).
  eapply map_Forall_lookup_1 in Hids as (Hid & Hpos & Hlt); [|exact Hu].
  repeat split; try done.
  - intros k' u' Hu' Hemail. by eapply Huniq.
  - pose proof (accounts_reachable_hashed bc acc Hreach) as Hh.
    by eapply map_Forall_lookup_1 in Hh.
Qed.

Lemma sampleBcrypt_sound : bcrypt_sound sampleBcrypt.
Proof. intros password salt. simpl. apply String.eqb_refl. Qed.

Lemma sampleAccounts_reachable : accounts_reachable sampleBcrypt sampleAccounts.
Proof.
  exact (accounts_register sampleBcrypt 5 sampleClock sampleRegisterBody
           noAccounts noSession (accounts_none sampleBcrypt)).
Qed.

Lemma registered_accounts_wellformed_witness :
  user_id sampleUser = 1%N ∧ (0 < 1)%N ∧ (1 < nextUserId sampleAccounts)%N
  ∧ (∀ k' u', users sampleAccounts !! k' = Some u' →
              user_email u' = user_email sampleUser → k' = 1%N)
  ∧ password_hashed sampleBcrypt sampleUser.
Proof.
  apply (registered_accounts_wellformed sampleBcrypt sampleAccounts 1%N
           sampleUser).
  - exact sampleAccounts_reachable.
  - reflexivity.
Defined.

Lemma register_error_truthy b :
  register_error b = None →
  str_truthy (rb_email b) = true ∧ str_truthy (rb_password b) = true.
Proof.
  unfold register_error.
  destruct (str_truthy (rb_email b)), (str_truthy (rb_name b)),
    (str_truthy (rb_password b)); simpl; try discriminate. done.
Qed.

(** Registration followed by login: when bcrypt accepts a password
    against its own hashes, a user whose registration succeeded is
    signed in at once, is recognised by /api/auth/me, and can log in
    from any browser with the e-mail address and the password just
    registered, which signs that browser in as the same user. *)
Theorem register_then_login bc salt clk b acc sess :
  bcrypt_sound bc →
  accounts_reachable bc acc →
  auth_status (register bc salt clk b acc sess).2 = 200 →
  ∃ u,
    users (register bc salt clk b acc sess).1.1 !! nextUserId acc = Some u
    ∧ user_id u = nextUserId acc
    ∧ rb_email b = SString (user_email u)
    ∧ isAuthenticated (register bc salt clk b acc sess).1.2 = Some (user_id u)
    ∧ me (register bc salt clk b acc sess).1.1
         (register bc salt clk b acc sess).1.2
      = {| auth_status := 200;
           auth_json := AuthMe (user_id u) (user_email u) (user_name u)
                          (user_profilePhoto u) (user_createdAt u) |}
    ∧ ∀ anySess,
        login bc (rb_email b) (rb_password b)
          (register bc salt clk b acc sess).1.1 anySess
        = ({| session_userId := Some (user_id u);
              session_userName := Some (user_name u) |},
           {| auth_status := 200;
              auth_json := AuthUser "Login realizado com sucesso!"
                             (user_id u) (user_email u) (user_name u) |}).
Proof.
  intros Hbc Hreach Hcode.
  pose proof (accounts_reachable_ok _ _
                (accounts_register bc salt clk b acc sess Hreach)) as Hok'.
  pose proof (accounts_reachable_ok _ _ Hreach) as (Hpos & _ & _).
  destruct (register_cases bc salt clk b acc sess)
    as [[e Hfail] | (Herr & Hnone & Hrun)];
    [by rewrite Hfail in Hcode|].
  simpl in Hrun. rewrite Hrun in *. simpl in *.
  destruct (register_error_truthy b Herr) as [Hemail Hpassword].
  eexists. split; [apply lookup_insert_eq|]. simpl.
  split; [done|].
  split; [destruct (rb_email b); done|].
  unfold me, isAuthenticated. simpl.
  destruct (N.eqb_spec (nextUserId acc) 0) as [H0|_]; [lia|].
  split; [done|]. rewrite lookup_insert_eq.
  split; [done|].
  intros anySess. unfold login. rewrite Hemail, Hpassword. simpl.
  match type of Hok' with
  | accounts_ok ?acc' =>
    pose proof (findUserByEmail_stored acc' (nextUserId acc) _ Hok'
                  (lookup_insert_eq _ _ _)) as Hfind
  end.
  simpl in Hfind. rewrite Hfind. simpl. by rewrite Hbc.
Qed.

Lemma register_then_login_witness :
  login sampleBcrypt (SString "ana@example.com") (SString "segredo1")
    sampleAccounts noSession
  = ({| session_userId := Some 1%N; session_userName := Some "Ana" |},
     {| auth_status := 200;
        auth_json := AuthUser "Login realizado com sucesso!" 1
                       "ana@example.com" "Ana" |}).
Proof.
  destruct (register_then_login sampleBcrypt 5 sampleClock sampleRegisterBody
              noAccounts noSession sampleBcrypt_sound
              (accounts_none sampleBcrypt) eq_refl)
    as (u & Hu & _ & _ & _ & _ & Hlogin).
  injection Hu as <-. apply (Hlogin noSession).
Defined.

(** A login that fails on the e-mail address and one that fails on the
    password cannot be told apart: whether no user has the address or
    bcrypt rejects the password, the answer is the same 401 with the
    same message, and the session stays as it was. *)
Theorem login_failures_alike bc email password acc sess :
  str_truthy email = true →
  str_truthy password = true →
  (∀ u, findUserByEmail (str_value email) acc = Some u →
        bcrypt_compare bc (str_value password) (user_password u) = false) →
  login bc email password acc sess
  = (sess, {| auth_status := 401;
              auth_json := AuthError "Email ou senha inválidos" |}).
Proof.
  intros Hemail Hpassword Hwrong. unfold login.
  rewrite Hemail, Hpassword. simpl.
  destruct (findUserByEmail (str_value email) acc) as [u|]; [|done].
  by rewrite (Hwrong u eq_refl).
Qed.

Lemma login_failures_alike_witness :
  login sampleBcrypt (SString "ana@example.com") (SString "errada")
    sampleAccounts noSession
  = login sampleBcrypt (SString "eva@example.com") (SString "errada")
      sampleAccounts noSession.
Proof.
  rewrite (login_failures_alike sampleBcrypt (SString "ana@example.com")
             (SString "errada") sampleAccounts noSession eq_refl eq_refl).
  - symmetry.
    apply (login_failures_alike sampleBcrypt (SString "eva@example.com")
             (SString "errada") sampleAccounts noSession eq_refl eq_refl).
    intros u Hu. discriminate Hu.
  - intros u Hu. injection Hu as <-. reflexivity.
Defined.

(** Registering with an e-mail address that a user already has is
    refused with a 400, the "already registered" one when the fields are
    valid, and changes neither the accounts nor the session. *)
Theorem register_taken_email bc salt clk b acc sess k u :
  accounts_reachable bc acc →
  users acc !! k = Some u →
  rb_email b = SString (user_email u) →
  ∃ e, register bc salt clk b acc sess
       = (acc, sess, {| auth_status := 400; auth_json := AuthError e |})
       ∧ (register_error b = None → e = "Email já cadastrado").
Proof.
  intros Hreach Hu Hemail. unfold register.
  destruct (register_error b) as [e|]; [by exists e|].
  rewrite Hemail. simpl.
  erewrite findUserByEmail_stored;
    [|by apply accounts_reachable_ok in Hreach|exact Hu].
  by eexists.
Qed.

Lemma register_taken_email_witness :
  ∃ e, register sampleBcrypt 9 sampleClock sampleRegisterBody sampleAccounts
         noSession
       = (sampleAccounts, noSession,
          {| auth_status := 400; auth_json := AuthError e |})
       ∧ (register_error sampleRegisterBody = None →
          e = "Email já cadastrado").
Proof.
  apply (register_taken_email sampleBcrypt 9 sampleClock sampleRegisterBody
           sampleAccounts noSession 1%N sampleUser).
  - exact sampleAccounts_reachable.
  - reflexivity.
  - reflexivity.
Defined.

(** Logging out ends the session: afterwards every route behind
    [isAuthenticated] answers 401 without touching the store,
    /api/auth/me answers 401, /api/auth/check reports no user and the
    root page leads to the login page. *)
Lemma logout_ends_session sess clk r db acc :
  serve (logout sess).1 clk r db
  = (db, {| statusCode := 401; json := ErrorBody "Não autenticado" |})
  ∧ me acc (logout sess).1
    = {| auth_status := 401; auth_json := AuthError "Não autenticado" |}
  ∧ check (logout sess).1
    = {| auth_status := 200; auth_json := AuthCheck false None None |}
  ∧ root (logout sess).1
    = {| auth_status := 302; auth_json := AuthRedirect "/login.html" |}.
Proof. done. Qed.

(** ** The range of the progress *)

Lemma Math_round_mono (x y : Q) : (x <= y)%Q → Math_round x <= Math_round y.
Proof.
  intros Hxy. unfold Math_round. apply Qfloor_resp_le.
  apply Qplus_le_compat; [exact Hxy|apply Qle_refl].
Qed.

Lemma percentage_mono (c c' t : Q) :
  (0 < t)%Q → (c <= c')%Q → (c / t * 100 <= c' / t * 100)%Q.
Proof.
  intros Ht Hc. apply Qmult_le_compat_r; [|discriminate].
  apply Qmult_le_compat_r; [exact Hc|].
  apply Qlt_le_weak. by apply Qinv_lt_0_compat.
Qed.

(** The progress of a goal is never above 100.  With a positive target
    and a current amount that is not negative it is not below 0, it is
    100 as soon as the current amount reaches the target, and raising
    the current amount never lowers it. *)
Theorem goal_progress_range (g : goal) :
  goal_progress g <= 100
  ∧ (goal_ok g →
     0 <= goal_progress g
     ∧ ((targetAmount g <= currentAmount g)%Q → goal_progress g = 100)
     ∧ ∀ q, (currentAmount g <= q)%Q →
            goal_progress g <= goal_progress (with_currentAmount g q)).
Proof.
  unfold goal_progress, Math_min. split.
  - destruct (Qltb 0 (targetAmount g)); lia.
  - intros [Ht Hc]. pose proof Ht as Hlt. apply Qltb_lt in Hlt.
    simpl. rewrite Hlt. split; [|split].
    + pose proof (Math_round_nonneg _ (percentage_nonneg _ _ Hc Ht)). lia.
    + intros Hreach.
      assert (100 <= currentAmount g / targetAmount g * 100)%Q as Hp.
      { assert (targetAmount g / targetAmount g * 100 == 100)%Q as Hone.
        { field. intros Heq. rewrite Heq in Ht. by apply Qlt_irrefl in Ht. }
        rewrite <- Hone at 1. by apply percentage_mono. }
      apply Math_round_mono in Hp. change (Math_round 100) with 100 in Hp.
      lia.
    + intros q Hq.
      pose proof (Math_round_mono _ _ (percentage_mono _ _ _ Ht Hq)). lia.
Qed.

Lemma goal_progress_range_witness :
  goal_progress (gp_goal sampleReturnedGoal) <= 100
  ∧ 0 <= goal_progress (gp_goal sampleReturnedGoal)
  ∧ goal_progress (gp_goal sampleReturnedGoal)
    <= goal_progress (with_currentAmount (gp_goal sampleReturnedGoal) 120).
Proof.
  destruct (goal_progress_range (gp_goal sampleReturnedGoal))
    as [Hmax Hrest].
  destruct Hrest as (Hmin & _ & Hmono); [split; [reflexivity|discriminate]|].
  split; [exact Hmax|]. split; [exact Hmin|].
  apply Hmono. discriminate.
Defined.
